(** * 449trackers: blink detection and input logging

    A shallow embedding of the two tracker entry points, [main.py]
    (pointer/keyboard variant) and [xbox.py] (gamepad variant): the eye
    aspect ratio, the rolling buffer, the open/closed blink detector, the
    action samplers and the log line each iteration writes.

    Module [Py]     what the Python runtime does for the code: floats,
                    [str] of an int, the [.2f] format, exceptions.
    Module [Blink]  the per-face pipeline, which the two files share line
                    for line (main.py 55-64 and 83-115, xbox.py 38-43 and
                    70-91).
    Module [Main]   main.py: [key_map], the action priority, the loop.
    Module [Xbox]   xbox.py: [controller_map], the sticks, the loop.
    Module [Bin64]  the mean of the rolling buffer on binary64 values,
                    rounding included.

    The theorems follow the definitions. *)

From Stdlib Require Import Floats ZArith String Ascii Bool Reals Lra Lia.
From Stdlib Require Import DecimalString List.
From Stdlib Require Import Sorted.
From Stdlib Require Uint63 QArith.
Import ListNotations.

Set Warnings "-inexact-float".

(* ===================================================================== *)
(** * Python runtime *)
(* ===================================================================== *)

Module Py.

(** Exceptions the modelled code can raise. *)
Inductive exn : Type :=
| IndexError
| ZeroDivisionError.

(** ** Floats of the blink pipeline

    The ratios are numpy float64 scalars ([dist.euclidean] returns one,
    and arithmetic with a numpy scalar yields a numpy scalar).  A finite
    value is modelled by the real number it denotes (rounding and overflow
    are not modelled); the three IEEE specials are kept, because dividing
    a numpy scalar by zero does not raise: it yields [inf] or [nan].
    What depends on the rounding itself, the value the smoothing filter
    puts out, is stated on binary64 values instead (module [Bin64]). *)
Inductive pyfloat : Type :=
| Fin (r : R)
| PInf
| NInf
| NaN.

Definition Rltb (a b : R) : bool := if Rlt_dec a b then true else false.
Definition Rleb (a b : R) : bool := if Rle_dec a b then true else false.
Definition Reqb (a b : R) : bool := if Req_dec_T a b then true else false.

(** [x + y] *)
Definition fadd (x y : pyfloat) : pyfloat :=
  match x, y with
  | NaN, _ | _, NaN => NaN
  | PInf, NInf | NInf, PInf => NaN
  | PInf, _ | _, PInf => PInf
  | NInf, _ | _, NInf => NInf
  | Fin a, Fin b => Fin (a + b)
  end.

(** [x / y]; a zero divisor is the positive zero (the model has no
    negative zero: the divisors of the code are sums, lengths and 2.0). *)
Definition fdiv (x y : pyfloat) : pyfloat :=
  match x, y with
  | NaN, _ | _, NaN => NaN
  | Fin a, Fin b =>
      if Reqb b 0 then
        if Reqb a 0 then NaN else if Rltb 0 a then PInf else NInf
      else Fin (a / b)
  | Fin _, (PInf | NInf) => Fin 0
  | (PInf | NInf), (PInf | NInf) => NaN
  | PInf, Fin b => if Rltb b 0 then NInf else PInf
  | NInf, Fin b => if Rltb b 0 then PInf else NInf
  end.

(** [x < y]: false as soon as one side is [nan]. *)
Definition fltb (x y : pyfloat) : bool :=
  match x, y with
  | NaN, _ | _, NaN => false
  | Fin a, Fin b => Rltb a b
  | NInf, (Fin _ | PInf) => true
  | Fin _, PInf => true
  | _, _ => false
  end.

(** [x > y] *)
Definition fgtb (x y : pyfloat) : bool := fltb y x.

(** [sum(xs)]: starts from the int 0 and adds front to back. *)
Definition py_sum (xs : list pyfloat) : pyfloat :=
  fold_left fadd xs (Fin 0).

(** [sum(xs) / len(xs)]; on an empty sequence both are the int 0 and the
    int division raises. *)
Definition sum_div_len (xs : list pyfloat) : pyfloat + exn :=
  match xs with
  | [] => inr ZeroDivisionError
  | _ => inl (fdiv (py_sum xs) (Fin (INR (length xs))))
  end.

(** ** [collections.deque(maxlen=n)]: [append] adds on the right and, when
    the deque is full, drops from the left. *)
Definition deque_append {A : Type} (maxlen : nat) (d : list A) (x : A) : list A :=
  match maxlen with
  | O => d
  | S _ => if Nat.ltb (length d) maxlen then d ++ [x] else tl d ++ [x]
  end.

(** ** [str(n)] of an int *)
Definition str_int (n : Z) : string := NilZero.string_of_int (Z.to_int n).

(** ** [format(x, ".2f")] of a Python float (binary64, exact)

    The float denotes [m * 2^e]; the hundredths are that value times 100
    rounded to the nearest integer, ties to even, as Python's correctly
    rounded formatting does. *)
Definition round_half_even (num den : Z) : Z :=
  let q := (num / den)%Z in
  let r := (num mod den)%Z in
  match (2 * r ?= den)%Z with
  | Lt => q
  | Gt => (q + 1)%Z
  | Eq => if Z.even q then q else (q + 1)%Z
  end.

Definition hundredths (m : positive) (e : Z) : Z :=
  if (0 <=? e)%Z then (Zpos m * 2 ^ e * 100)%Z
  else round_half_even (Zpos m * 100) (2 ^ (- e)).

Definition digit (n : Z) : ascii := ascii_of_nat (48 + Z.to_nat n).

Definition fixed2 (n : Z) : string :=
  (str_int (n / 100) ++
   String "." (String (digit (n mod 100 / 10)) (String (digit (n mod 10)) "")))%string.

Definition format_2f (x : float) : string :=
  match Prim2SF x with
  | S754_nan => "nan"
  | S754_infinity s => if s then "-inf" else "inf"
  | S754_zero s => if s then "-0.00" else "0.00"
  | S754_finite s m e =>
      ((if s then "-" else "") ++ fixed2 (hundredths m e))%string
  end.

(** ** Results: a value or the exception raised *)
Definition result (A : Type) : Type := (A + exn)%type.

Definition rbind {A B : Type} (r : result A) (k : A -> result B) : result B :=
  match r with
  | inl a => k a
  | inr e => inr e
  end.

(** [xs[i]] on a list, for an index [i >= 0]. *)
Definition getitem {A : Type} (xs : list A) (i : nat) : result A :=
  match nth_error xs i with
  | Some a => inl a
  | None => inr IndexError
  end.

(** [range(lo, hi)] *)
Definition range (lo hi : Z) : list Z :=
  map (fun k => (lo + Z.of_nat k)%Z) (seq 0 (Z.to_nat (hi - lo))).

End Py.

(* ===================================================================== *)
(** * The world the loops run in *)
(* ===================================================================== *)

(** The module-level variables of a tracker ([blink_state],
    [close_start_time], [blink_count], [ear_buffer]) and what a run leaves
    behind: the lines of the log file, the lines printed, and how many
    times [cap.read()] has been called. *)
Record world : Type := mkWorld {
  blink_state : Z;                      (* 0 = open, 1 = closed *)
  close_start_time : option R;          (* None or a [time.time()] reading,
                                           as the real number it denotes *)
  blink_count : Z;
  ear_buffer : list Py.pyfloat;         (* deque(maxlen=SMOOTHING_WINDOW) *)
  log_file : list string;               (* one entry per [write] *)
  console : list string;                (* one entry per [print] *)
  frames_read : nat                     (* calls of [cap.read()] *)
}.

Definition OPEN : Z := 0.
Definition CLOSED : Z := 1.

(** The state at import time, with the log file as it was found ([open]
    uses mode "a"). *)
Definition initial_world (old_log : list string) : world :=
  {| blink_state := 0;
     close_start_time := None;
     blink_count := 0;
     ear_buffer := [];
     log_file := old_log;
     console := [];
     frames_read := 0 |}.

(** State and exceptions: a computation returns a value or the exception
    it raised, and in both cases the world as it left it. *)
Definition M (A : Type) : Type := world -> Py.result A * world.

Definition ret {A : Type} (a : A) : M A := fun w => (inl a, w).

Definition bind {A B : Type} (m : M A) (k : A -> M B) : M B :=
  fun w =>
    match m w with
    | (inl a, w') => k a w'
    | (inr e, w') => (inr e, w')
    end.

Definition lift {A : Type} (r : Py.result A) : M A := fun w => (r, w).

Definition get : M world := fun w => (inl w, w).

Definition modify (f : world -> world) : M unit := fun w => (inl tt, f w).

Declare Scope tracker_scope.
Delimit Scope tracker_scope with tracker.
Notation "x <- m ;; k" := (bind m (fun x => k))
  (at level 61, m at next level, right associativity) : tracker_scope.
Notation "m ;;; k" := (bind m (fun _ => k))
  (at level 61, right associativity) : tracker_scope.

(** [for x in xs: body(x)] *)
Fixpoint for_each {A : Type} (xs : list A) (body : A -> M unit) : M unit :=
  match xs with
  | [] => ret tt
  | x :: rest => bind (body x) (fun _ => for_each rest body)
  end.

(** [while True: body], over the passes the environment allows: the body
    returns [true] to go on and [false] on [break]; an exception ends the
    loop as well. *)
Fixpoint while_true {T : Type} (body : T -> M bool) (ticks : list T) : M unit :=
  match ticks with
  | [] => ret tt
  | t :: rest =>
      bind (body t) (fun go_on => if go_on then while_true body rest else ret tt)
  end.

(** The world a computation leaves. *)
Definition exec {A : Type} (m : M A) (w : world) : world := snd (m w).

(** The world with another buffer, after one more call of [cap.read()],
    with one more line in the log, with one more line printed. *)
Definition set_buffer (w : world) (buf : list Py.pyfloat) : world :=
  {| blink_state := blink_state w;
     close_start_time := close_start_time w;
     blink_count := blink_count w;
     ear_buffer := buf;
     log_file := log_file w;
     console := console w;
     frames_read := frames_read w |}.

Definition read_frame (w : world) : world :=
  {| blink_state := blink_state w;
     close_start_time := close_start_time w;
     blink_count := blink_count w;
     ear_buffer := ear_buffer w;
     log_file := log_file w;
     console := console w;
     frames_read := S (frames_read w) |}.

Definition append_log (w : world) (line : string) : world :=
  {| blink_state := blink_state w;
     close_start_time := close_start_time w;
     blink_count := blink_count w;
     ear_buffer := ear_buffer w;
     log_file := log_file w ++ [line];
     console := console w;
     frames_read := frames_read w |}.

Definition append_console (w : world) (line : string) : world :=
  {| blink_state := blink_state w;
     close_start_time := close_start_time w;
     blink_count := blink_count w;
     ear_buffer := ear_buffer w;
     log_file := log_file w;
     console := console w ++ [line];
     frames_read := frames_read w |}.

(** [print(s)] *)
Definition print (s : string) : M unit := modify (fun w => append_console w s).

(** [log_file.write(s)] (the [flush] that follows changes nothing here). *)
Definition log_write (s : string) : M unit := modify (fun w => append_log w s).

(** [ret, frame = cap.read()]: [None] stands for [ret] being false. *)
Definition cap_read {A : Type} (frame : option A) : M (option A) :=
  bind (modify read_frame) (fun _ => ret frame).

(** [cv2.waitKey(1) & 0xFF == ord('q')] *)
Definition quit_pressed (wait_key : Z) : bool :=
  (Z.land wait_key 255 =? 113)%Z.

(* ===================================================================== *)
(** * The per-face pipeline (main.py 55-64, 83-115; xbox.py 38-43, 70-91) *)
(* ===================================================================== *)

Module Blink.
Import Py.
Local Open Scope R_scope.
Local Open Scope tracker_scope.

(** A landmark: [(landmarks.part(i).x, landmarks.part(i).y)], two ints. *)
Definition point : Type := (Z * Z)%type.

(** [dist.euclidean(p, q)] *)
Definition euclidean (p q : point) : R :=
  let dx := (fst p - fst q)%Z in
  let dy := (snd p - snd q)%Z in
  sqrt (IZR (dx * dx + dy * dy)).

(** [calculate_ear(eye)]: [C] is not tested before the division, and no
    caller wraps the call in a [try]. *)
Definition calculate_ear (eye : list point) : result pyfloat :=
  rbind (getitem eye 1) (fun e1 =>
  rbind (getitem eye 5) (fun e5 =>
  let A := euclidean e1 e5 in
  rbind (getitem eye 2) (fun e2 =>
  rbind (getitem eye 4) (fun e4 =>
  let B := euclidean e2 e4 in
  rbind (getitem eye 0) (fun e0 =>
  rbind (getitem eye 3) (fun e3 =>
  let C := euclidean e0 e3 in
  let ear := fdiv (Fin (A + B)) (Fin (2 * C)) in
  inl ear)))))).

(** What the external collaborators hand over for one detected face: the
    landmarks [predictor(gray, face)] finds, and the reading [time.time()]
    gives while the face is processed (the code reads the clock at most
    once per face, at line 105 or at line 111 of main.py). *)
Record face : Type := mkFace {
  part : Z -> point;
  clock : R
}.

Section Parameters.

Variable EAR_THRESHOLD : R.
Variable SMOOTHING_WINDOW : nat.
Variable MIN_CLOSE_DURATION : R.

(** [ear_buffer.append(avg_ear)] *)
Definition buffer_append (avg_ear : pyfloat) : M unit :=
  modify (fun w =>
    set_buffer w (deque_append SMOOTHING_WINDOW (ear_buffer w) avg_ear)).

(** The rise-and-fall logic (main.py 102-115). *)
Definition update_blink (smoothed_ear : pyfloat) (now : R) (w : world) : world :=
  if fltb smoothed_ear (Fin EAR_THRESHOLD) && (blink_state w =? 0)%Z then
    (* eyes just closed *)
    {| blink_state := 1;
       close_start_time := Some now;
       blink_count := blink_count w;
       ear_buffer := ear_buffer w;
       log_file := log_file w;
       console := console w;
       frames_read := frames_read w |}
  else if fgtb smoothed_ear (Fin EAR_THRESHOLD) && (blink_state w =? 1)%Z then
    (* eyes just opened *)
    {| blink_state := 0;
       close_start_time := None;
       blink_count :=
         match close_start_time w with
         | Some t0 =>
             let close_duration := now - t0 in
             if Rleb MIN_CLOSE_DURATION close_duration
             then (blink_count w + 1)%Z
             else blink_count w
         | None => blink_count w
         end;
       ear_buffer := ear_buffer w;
       log_file := log_file w;
       console := console w;
       frames_read := frames_read w |}
  else w.

(** The body of [for face in faces] up to the state update; the drawing
    calls that follow touch only the frame. *)
Definition process_face (f : face) : M unit :=
  let left_eye := map (part f) (range 36 42) in
  let right_eye := map (part f) (range 42 48) in
  left_ear <- lift (calculate_ear left_eye) ;;
  right_ear <- lift (calculate_ear right_eye) ;;
  let avg_ear := fdiv (fadd left_ear right_ear) (Fin 2) in
  buffer_append avg_ear ;;;
  w <- get ;;
  smoothed_ear <- lift (sum_div_len (ear_buffer w)) ;;
  modify (update_blink smoothed_ear (clock f)).

Definition process_faces (faces : list face) : M unit :=
  for_each faces process_face.

End Parameters.

End Blink.

(* ===================================================================== *)
(** * main.py: pointer and keyboard *)
(* ===================================================================== *)

(** The virtual-key codes [main.py] takes from [win32con], with their
    Win32 values. *)
Module win32con.
Definition VK_LBUTTON : Z := 1.
Definition VK_RBUTTON : Z := 2.
Definition VK_SHIFT : Z := 16.
Definition VK_CONTROL : Z := 17.
Definition VK_MENU : Z := 18.
Definition VK_ESCAPE : Z := 27.
Definition VK_SPACE : Z := 32.
End win32con.

Module Main.
Import Py win32con.
Local Open Scope string_scope.
Local Open Scope Z_scope.
Local Open Scope tracker_scope.

Definition EAR_THRESHOLD : R := 0.25%R.
Definition SMOOTHING_WINDOW : nat := 5.
Definition MIN_CLOSE_DURATION : R := 0.10%R.

(** [key_map], in the order of the dict literal (which is the order
    [key_map.items()] enumerates). *)
Definition key_map : list (Z * string) :=
  [ (0x57, "W"); (0x41, "A"); (0x53, "S"); (0x44, "D"); (0x52, "R");
    (0x43, "C"); (VK_SHIFT, "Shift"); (VK_CONTROL, "Ctrl"); (VK_MENU, "Alt");
    (VK_SPACE, "Space"); (VK_ESCAPE, "Esc");
    (0x31, "1"); (0x32, "2"); (0x33, "3"); (0x34, "4") ].

(** What one pass of the loop takes from outside: the frame [cap.read()]
    returns ([None] when [ret] is false) as the faces the detector finds
    in it, the cursor, the formatted local time, the key states
    ([win32api.GetKeyState], a 16-bit value that is negative while the key
    is down) and what [cv2.waitKey(1)] returns. *)
Record tick : Type := mkTick {
  frame : option (list Blink.face);
  cursor : Z * Z;
  timestamp : string;
  GetKeyState : Z -> Z;
  wait_key : Z
}.

(** The keyboard scan of lines 137-139: every pressed key overwrites
    [action]; there is no [break]. *)
Definition scan_keys (key_state : Z -> Z) (action : string) : string :=
  fold_left
    (fun action (entry : Z * string) =>
       let (vk, name) := entry in
       if key_state vk <? 0 then name else action)
    key_map action.

(** Lines 126-139. *)
Definition sample_action (key_state : Z -> Z) : string :=
  let action := "None" in
  if key_state VK_LBUTTON <? 0 then "Left Click"
  else if key_state VK_RBUTTON <? 0 then "Right Click"
  else scan_keys key_state action.

(** [str(coords)] of a pair of ints. *)
Definition str_coords (c : Z * Z) : string :=
  "(" ++ str_int (fst c) ++ ", " ++ str_int (snd c) ++ ")".

(** Line 142. *)
Definition log_line (ts : string) (coords : Z * Z) (action : string)
    (count : Z) : string :=
  ts ++ " - " ++ str_coords coords ++ " - " ++ action ++ " - "
     ++ str_int count ++ String "010" "".

(** One pass of [while True]: [true] to go on, [false] on [break]. *)
Definition iteration (t : tick) : M bool :=
  fr <- cap_read (frame t) ;;
  match fr with
  | None => ret false
  | Some faces =>
      Blink.process_faces EAR_THRESHOLD SMOOTHING_WINDOW MIN_CLOSE_DURATION faces ;;;
      let action := sample_action (GetKeyState t) in
      w <- get ;;
      log_write (log_line (timestamp t) (cursor t) action (blink_count w)) ;;;
      if quit_pressed (wait_key t) then ret false else ret true
  end.

(** [track_actions]: the camera is opened, the log is opened for
    appending, and the loop runs. *)
Definition track_actions (ticks : list tick) : M unit :=
  while_true iteration ticks.

End Main.

(* ===================================================================== *)
(** * xbox.py: gamepad *)
(* ===================================================================== *)

Module Xbox.
Import Py.
Local Open Scope string_scope.
Local Open Scope Z_scope.
Local Open Scope tracker_scope.

Definition EAR_THRESHOLD : R := 0.25%R.
Definition SMOOTHING_WINDOW : nat := 5.
Definition MIN_CLOSE_DURATION : R := 0.10%R.

(** [controller_map], in the order of the dict literal. *)
Definition controller_map : list (Z * string) :=
  [ (0, "A"); (1, "B"); (2, "X"); (3, "Y"); (8, "LB"); (9, "RB");
    (10, "LT"); (11, "RT"); (12, "L3"); (13, "R3") ].

(** One pass of the loop, from outside: the frame, the mouse position,
    the stick axes and buttons of joystick 0, the formatted local time and
    what [cv2.waitKey(1)] returns. *)
Record tick : Type := mkTick {
  frame : option (list Blink.face);
  mouse_pos : Z * Z;
  get_axis : Z -> float;
  get_button : Z -> bool;
  timestamp : string;
  wait_key : Z
}.

(** Lines 119-123: the first button held down, with [break]. *)
Fixpoint scan_buttons (button : Z -> bool) (ids : list (Z * string))
    (action : string) : string :=
  match ids with
  | [] => action
  | (button_id, name) :: rest =>
      if button button_id then name else scan_buttons button rest action
  end.

Definition sample_action (button : Z -> bool) : string :=
  scan_buttons button controller_map "None".

(** Lines 127-132. *)
Definition log_text (ts : string) (l3_x l3_y r3_x r3_y : float)
    (action : string) (count : Z) : string :=
  ts ++ " - " ++
  "(" ++ format_2f l3_x ++ ", " ++ format_2f l3_y ++ ") - " ++
  "(" ++ format_2f r3_x ++ ", " ++ format_2f r3_y ++ ") - " ++
  action ++ " - " ++ str_int count ++ String "010" "".

Definition iteration (t : tick) : M bool :=
  fr <- cap_read (frame t) ;;
  match fr with
  | None => ret false
  | Some faces =>
      Blink.process_faces EAR_THRESHOLD SMOOTHING_WINDOW MIN_CLOSE_DURATION faces ;;;
      let l3_x := get_axis t 0 in
      let l3_y := get_axis t 1 in
      let r3_x := get_axis t 4 in
      let r3_y := get_axis t 5 in
      let action := sample_action (get_button t) in
      w <- get ;;
      log_write (log_text (timestamp t) l3_x l3_y r3_x r3_y action (blink_count w)) ;;;
      if quit_pressed (wait_key t) then ret false else ret true
  end.

(** [track_actions]: [joystick_count] is what
    [pygame.joystick.get_count()] returns. *)
Definition track_actions (joystick_count : Z) (ticks : list tick) : M unit :=
  if joystick_count =? 0 then
    print "No controllers connected."
  else
    while_true iteration ticks.

End Xbox.

(* ===================================================================== *)
(** * Vocabulary of the statements *)
(* ===================================================================== *)

(** The four variables of the blink detector and its filter. *)
Definition detector_of (w : world) : Z * option R * Z * list Py.pyfloat :=
  (blink_state w, close_start_time w, blink_count w, ear_buffer w).

(** The quotient [calculate_ear] computes on the outline [p0..p5]. *)
Definition ratio (p0 p1 p2 p3 p4 p5 : Blink.point) : Py.pyfloat :=
  Py.fdiv (Py.Fin (Blink.euclidean p1 p5 + Blink.euclidean p2 p4))
          (Py.Fin (2 * Blink.euclidean p0 p3)).

(** The per-face sample [avg_ear]: landmarks 36-41 are the left eye,
    42-47 the right eye. *)
Definition avg_ear (f : Blink.face) : Py.pyfloat :=
  let p := Blink.part f in
  Py.fdiv
    (Py.fadd (ratio (p 36%Z) (p 37%Z) (p 38%Z) (p 39%Z) (p 40%Z) (p 41%Z))
             (ratio (p 42%Z) (p 43%Z) (p 44%Z) (p 45%Z) (p 46%Z) (p 47%Z)))
    (Py.Fin 2).

(** The detector's invariant: it is open with no start time, or closed
    with the time at which it closed. *)
Definition detector_ok (w : world) : Prop :=
  (blink_state w = OPEN /\ close_start_time w = None) \/
  (blink_state w = CLOSED /\ exists t0, close_start_time w = Some t0).

(** An outline whose two corners coincide, and a face both of whose eyes
    have it. *)
Definition degenerate_eye : list Blink.point :=
  [ (0, 0); (1, 2); (2, 2); (0, 0); (2, -2); (1, -2) ]%Z.

Definition degenerate_face : Blink.face :=
  {| Blink.part := fun i => nth (Z.to_nat ((i - 36) mod 6)) degenerate_eye (0, 0)%Z;
     Blink.clock := 0 |}.

(** How many faces the detector found in what [cap.read()] returned. *)
Definition faces_in (fr : option (list Blink.face)) : nat :=
  match fr with
  | Some faces => length faces
  | None => 0
  end.

(** The smoothing filter as the specification words it: the last [W]
    samples of a sequence, and the arithmetic mean of real numbers. *)
Definition last_n {A : Type} (W : nat) (xs : list A) : list A :=
  skipn (length xs - W) xs.

Definition arithmetic_mean (xs : list R) : R :=
  (fold_right Rplus 0 xs / INR (length xs))%R.

(** Samples put into a filter of capacity [W], one [append] each. *)
Definition feed {A : Type} (W : nat) (buffer : list A) (samples : list A) : list A :=
  fold_left (Py.deque_append W) samples buffer.

(** The action label as the specification words it: left button, else
    right button, else the FIRST key of [key_map] that is down, else
    "None". *)
Definition pressed (key_state : Z -> Z) (vk : Z) : bool := (key_state vk <? 0)%Z.

Definition first_pressed (key_state : Z -> Z) (keys : list (Z * string)) : option string :=
  option_map snd (find (fun entry => pressed key_state (fst entry)) keys).

Definition last_pressed (key_state : Z -> Z) (keys : list (Z * string)) : option string :=
  first_pressed key_state (rev keys).

Definition spec_action (key_state : Z -> Z) : string :=
  if pressed key_state win32con.VK_LBUTTON then "Left Click"%string
  else if pressed key_state win32con.VK_RBUTTON then "Right Click"%string
  else match first_pressed key_state Main.key_map with
       | Some name => name
       | None => "None"%string
       end.

(** Key states with exactly the given virtual keys down (a key that is
    down reads -128: the high bit of the 16-bit state is set). *)
Definition keys_down (down : list Z) : Z -> Z :=
  fun vk => if existsb (Z.eqb vk) down then (-128)%Z else 0%Z.

(** A float that is neither [inf] nor [nan]. *)
Definition finite_float (x : float) : bool :=
  match Prim2SF x with
  | S754_zero _ | S754_finite _ _ _ => true
  | _ => false
  end.

(** A recognizer of text with exactly two decimal places: an optional
    minus sign, one digit or more, a point, two digits, the end. *)
Definition is_digit (c : ascii) : bool :=
  (48 <=? nat_of_ascii c)%nat && (nat_of_ascii c <=? 57)%nat.

Fixpoint all_digits (s : string) : bool :=
  match s with
  | EmptyString => true
  | String c rest => is_digit c && all_digits rest
  end.

Fixpoint digits_point_two (seen_digit : bool) (s : string) : bool :=
  match s with
  | EmptyString => false
  | String c rest =>
      if is_digit c then digits_point_two true rest
      else if Ascii.eqb c "." then
        seen_digit &&
        match rest with
        | String a (String b EmptyString) => is_digit a && is_digit b
        | _ => false
        end
      else false
  end.

Definition is_two_decimals (s : string) : bool :=
  match s with
  | String c rest =>
      if Ascii.eqb c "-" then digits_point_two false rest
      else digits_point_two false s
  | EmptyString => false
  end.

(** The pass of the gamepad loop the specification takes as its example:
    no face in the frame, sticks at (0.123, -0.456) and (0.0, 1.0), button
    0 held, and a count of 3 so far. *)
Definition example_pad_tick : Xbox.tick :=
  {| Xbox.frame := Some [];
     Xbox.mouse_pos := (0, 0)%Z;
     Xbox.get_axis := fun k =>
       if (k =? 0)%Z then 0.123%float
       else if (k =? 1)%Z then (-0.456)%float
       else if (k =? 4)%Z then 0.0%float
       else if (k =? 5)%Z then 1.0%float
       else 0%float;
     Xbox.get_button := fun b => (b =? 0)%Z;
     Xbox.timestamp := "2025-01-01 12:00:00";
     Xbox.wait_key := (-1)%Z |}.

Definition example_pad_world : world :=
  {| blink_state := 0;
     close_start_time := None;
     blink_count := 3;
     ear_buffer := [];
     log_file := [];
     console := [];
     frames_read := 0 |}.

(** A detector that closed at [t0] with [count] blinks so far. *)
Definition closed_world (t0 : R) (count : Z) : world :=
  {| blink_state := 1;
     close_start_time := Some t0;
     blink_count := count;
     ear_buffer := [];
     log_file := [];
     console := [];
     frames_read := 0 |}.

(** Passes of the pointer loop: a frame with the given faces, the cursor
    at the origin, the W key down. *)
Definition example_main_tick (faces : list Blink.face) : Main.tick :=
  {| Main.frame := Some faces;
     Main.cursor := (0, 0)%Z;
     Main.timestamp := "2025-01-01 12:00:00";
     Main.GetKeyState := keys_down [0x57%Z];
     Main.wait_key := (-1)%Z |}.

(** A face both of whose eyes are 100 wide and [h] high, seen when the
    clock reads [now]: its ratio is [h / 100]. *)
Definition eye_of_height (h : Z) : list Blink.point :=
  [ (0, 0); (30, h); (60, h); (100, 0); (60, 0); (30, 0) ]%Z.

Definition face_of_height (h : Z) (now : R) : Blink.face :=
  {| Blink.part := fun i => nth (Z.to_nat ((i - 36) mod 6)) (eye_of_height h) (0, 0)%Z;
     Blink.clock := now |}.

(** The end-to-end scenario of the specification: ratios 0.30, 0.30,
    0.18, 0.18, 0.18, 0.32 sampled 0.05 s apart. *)
Definition scenario_faces : list Blink.face :=
  [ face_of_height 30 0; face_of_height 30 0.05; face_of_height 18 0.10;
    face_of_height 18 0.15; face_of_height 18 0.20; face_of_height 32 0.25 ]%R.

(** An outline moved by [v]. *)
Definition translate (v p : Blink.point) : Blink.point :=
  (fst p + fst v, snd p + snd v)%Z.

(** Samples that are finite or plus infinity. *)
Definition finite_or_inf (x : Py.pyfloat) : Prop :=
  match x with
  | Py.Fin _ | Py.PInf => True
  | _ => False
  end.

(** 1 while the detector is closed, 0 otherwise. *)
Definition closed_bit (w : world) : Z :=
  if (blink_state w =? 1)%Z then 1%Z else 0%Z.

(** The three variables of the detector proper. *)
Definition blink_of (w : world) : Z * option R * Z :=
  (blink_state w, close_start_time w, blink_count w).

(** A line of either log that carries the count [c]. *)
Definition logs_count (line : string) (c : Z) : Prop :=
  (exists ts coords action, line = Main.log_line ts coords action c) \/
  (exists ts lx ly rx ry action, line = Xbox.log_text ts lx ly rx ry action c).

(** What a stretch of a run adds to the log: lines appended after the
    ones that were there, each carrying a count, the counts never going
    down and lying between the count before and the count after. *)
Definition counts_logged (before after : world) : Prop :=
  exists (lines : list string) (counts : list Z),
    log_file after = log_file before ++ lines /\
    Forall2 logs_count lines counts /\
    StronglySorted Z.le counts /\
    Forall (fun c => (blink_count before <= c <= blink_count after)%Z) counts /\
    (blink_count before <= blink_count after)%Z.


Definition collapsed_face : Blink.face :=
  {| Blink.part := fun _ => (0, 0)%Z;
     Blink.clock := 0 |}.

(** The faces the detector finds over the passes of a run. *)
Definition main_faces_seen (ticks : list Main.tick) : nat :=
  fold_right (fun t n => (faces_in (Main.frame t) + n)%nat) 0%nat ticks.

Definition xbox_faces_seen (ticks : list Xbox.tick) : nat :=
  fold_right (fun t n => (faces_in (Xbox.frame t) + n)%nat) 0%nat ticks.

(** The pass of the pointer loop taken as an example: no face, the
    cursor at (640, 360), the right mouse button and the W key down. *)
Definition example_pointer_tick : Main.tick :=
  {| Main.frame := Some [];
     Main.cursor := (640, 360)%Z;
     Main.timestamp := "2025-01-01 12:00:00";
     Main.GetKeyState := keys_down [win32con.VK_RBUTTON; 0x57%Z];
     Main.wait_key := (-1)%Z |}.

(* ===================================================================== *)
(** * The smoothing filter in binary64 *)
(* ===================================================================== *)

(** Lines 96-97 of main.py (79-80 of xbox.py) on binary64 values, with
    every operation rounded as the machine rounds it.  The samples in the
    deque are numpy scalars, so [sum] adds them one at a time, front to
    back, starting from the int 0, and the quotient by the int [len] is a
    binary64 division. *)
Module Bin64.
Import Py.

Definition py_sum (xs : list float) : float :=
  fold_left PrimFloat.add xs 0%float.

Definition py_len (xs : list float) : float :=
  PrimFloat.of_uint63 (Uint63.of_Z (Z.of_nat (length xs))).

Definition sum_div_len (xs : list float) : result float :=
  match xs with
  | [] => inr ZeroDivisionError
  | _ => inl (PrimFloat.div (py_sum xs) (py_len xs))
  end.

(** [smoothed_ear] after the samples have been appended, one by one, to
    an empty [deque(maxlen=W)]. *)
Definition smoothed_ear (W : nat) (samples : list float) : result float :=
  sum_div_len (fold_left (deque_append W) samples []).

End Bin64.

(** The rational number a finite binary64 value denotes, and the
    arithmetic mean of the numbers a list of samples denotes. *)
Definition exact_value (x : float) : option QArith_base.Q :=
  match Prim2SF x with
  | S754_zero _ => Some (QArith_base.inject_Z 0)
  | S754_finite s m e =>
      Some (QArith_base.Qmult
              (QArith_base.inject_Z (if s then Zneg m else Zpos m))
              (QArith_base.Qpower (QArith_base.inject_Z 2) e))
  | _ => None
  end.

Fixpoint exact_sum (xs : list float) : option QArith_base.Q :=
  match xs with
  | [] => Some (QArith_base.inject_Z 0)
  | x :: rest =>
      match exact_value x, exact_sum rest with
      | Some v, Some total => Some (QArith_base.Qplus v total)
      | _, _ => None
      end
  end.

Definition exact_mean (xs : list float) : option QArith_base.Q :=
  match exact_sum xs with
  | Some total =>
      Some (QArith_base.Qdiv total (QArith_base.inject_Z (Z.of_nat (length xs))))
  | None => None
  end.

(** Three samples whose binary64 mean is not their mean. *)
Definition rounding_samples : list float := [0.25; 0.41; 0.09]%float.

(* ===================================================================== *)
(** * Theorems *)
(* ===================================================================== *)

(** ** The monad *)

Lemma exec_bind {A B : Type} (m : M A) (k : A -> M B) (w : world) :
  exec (bind m k) w =
  match fst (m w) with
  | inl a => exec (k a) (exec m w)
  | inr _ => exec m w
  end.
Proof.
  unfold exec, bind. destruct (m w) as [[a | e] w']; reflexivity.
Qed.

Lemma fst_bind {A B : Type} (m : M A) (k : A -> M B) (w : world) :
  fst (bind m k w) =
  match fst (m w) with
  | inl a => fst (k a (exec m w))
  | inr e => inr e
  end.
Proof.
  unfold exec, bind. destruct (m w) as [[a | e] w']; reflexivity.
Qed.

(** ** The loop *)

Section WhileTrue.
Variable T : Type.
Variable body : T -> M bool.

Lemma while_true_cons (t : T) (rest : list T) (w : world) :
  exec (while_true body (t :: rest)) w =
  match fst (body t w) with
  | inl true => exec (while_true body rest) (exec (body t) w)
  | _ => exec (body t) w
  end.
Proof.
  cbn [while_true]. rewrite exec_bind.
  destruct (fst (body t w)) as [[ | ] | e]; reflexivity.
Qed.

(** A reflexive and transitive relation between the world before and
    after each pass relates the world before and after the loop, and the
    world after some passes with the world after more of them. *)
Variable Rel : world -> world -> Prop.
Hypothesis Rel_refl : forall w, Rel w w.
Hypothesis Rel_trans : forall a b c, Rel a b -> Rel b c -> Rel a c.
Hypothesis Rel_body : forall t w, Rel w (exec (body t) w).

Lemma while_true_rel (ticks : list T) (w : world) :
  Rel w (exec (while_true body ticks) w).
Proof.
  revert w. induction ticks as [ | t rest IH]; intros w.
  - apply Rel_refl.
  - rewrite while_true_cons.
    destruct (fst (body t w)) as [[ | ] | e]; try apply Rel_body.
    eapply Rel_trans; [apply Rel_body | apply IH].
Qed.

Lemma while_true_rel_prefix (ticks more : list T) (w : world) :
  Rel (exec (while_true body ticks) w) (exec (while_true body (ticks ++ more)) w).
Proof.
  revert w. induction ticks as [ | t rest IH]; intros w.
  - apply while_true_rel.
  - rewrite <- app_comm_cons, !while_true_cons.
    destruct (fst (body t w)) as [[ | ] | e]; try apply Rel_refl.
    apply IH.
Qed.

End WhileTrue.

(** ** The eye aspect ratio *)

Section Ratio.
Import Py Blink.
Local Open Scope R_scope.

Lemma euclidean_nonneg (p q : point) : 0 <= euclidean p q.
Proof. unfold euclidean. apply sqrt_pos. Qed.

Lemma sum_squares_nonneg (a b : Z) : (0 <= a * a + b * b)%Z.
Proof. nia. Qed.

Lemma euclidean_zero_iff (p q : point) : euclidean p q = 0 <-> p = q.
Proof.
  unfold euclidean. split.
  - intros H. apply sqrt_eq_0 in H.
    + apply eq_IZR_R0 in H.
      destruct p as [px py], q as [qx qy]. cbn [fst snd] in H.
      pose proof (Z.square_nonneg (px - qx)) as Hx.
      pose proof (Z.square_nonneg (py - qy)) as Hy.
      assert (Ex : ((px - qx) * (px - qx) = 0)%Z) by lia.
      assert (Ey : ((py - qy) * (py - qy) = 0)%Z) by lia.
      apply Z.mul_eq_0 in Ex, Ey.
      f_equal; lia.
    + apply IZR_le, sum_squares_nonneg.
  - intros ->. replace (fst q - fst q)%Z with 0%Z by lia.
    replace (snd q - snd q)%Z with 0%Z by lia.
    simpl. apply sqrt_0.
Qed.

(** On six points no index is out of range and the ratio is the quotient
    the code writes. *)
Lemma calculate_ear_six (p0 p1 p2 p3 p4 p5 : point) :
  calculate_ear [p0; p1; p2; p3; p4; p5] =
  inl (fdiv (Fin (euclidean p1 p5 + euclidean p2 p4))
            (Fin (2 * euclidean p0 p3))).
Proof. reflexivity. Qed.

Lemma fdiv_fin_nonzero (a b : R) : b <> 0 -> fdiv (Fin a) (Fin b) = Fin (a / b).
Proof.
  intros Hb. unfold fdiv, Reqb. destruct (Req_dec_T b 0); [contradiction | reflexivity].
Qed.

Lemma fdiv_fin_zero (a : R) :
  fdiv (Fin a) (Fin 0) =
  if Reqb a 0 then NaN else if Rltb 0 a then PInf else NInf.
Proof.
  unfold fdiv. unfold Reqb at 1. destruct (Req_dec_T 0 0); [reflexivity | contradiction].
Qed.

Lemma ratio_regular (p0 p1 p2 p3 p4 p5 : point) :
  p0 <> p3 ->
  exists r, ratio p0 p1 p2 p3 p4 p5 = Fin r /\ 0 <= r.
Proof.
  intros Hne. unfold ratio.
  assert (HC : 0 < euclidean p0 p3).
  { pose proof (euclidean_nonneg p0 p3) as H0.
    destruct (Req_dec_T (euclidean p0 p3) 0) as [E | E]; [ | lra].
    apply euclidean_zero_iff in E. contradiction. }
  exists ((euclidean p1 p5 + euclidean p2 p4) / (2 * euclidean p0 p3)). split.
  - apply fdiv_fin_nonzero. lra.
  - pose proof (euclidean_nonneg p1 p5). pose proof (euclidean_nonneg p2 p4).
    apply Rmult_le_pos; [lra | ].
    apply Rlt_le, Rinv_0_lt_compat. lra.
Qed.

Lemma ratio_degenerate (p0 p1 p2 p3 p4 p5 : point) :
  p0 = p3 ->
  ratio p0 p1 p2 p3 p4 p5 =
  if Reqb (euclidean p1 p5 + euclidean p2 p4) 0 then NaN else PInf.
Proof.
  intros Heq. unfold ratio.
  apply euclidean_zero_iff in Heq. rewrite Heq, Rmult_0_r, fdiv_fin_zero.
  unfold Reqb, Rltb.
  destruct (Req_dec_T (euclidean p1 p5 + euclidean p2 p4) 0) as [E | E]; [reflexivity | ].
  pose proof (euclidean_nonneg p1 p5). pose proof (euclidean_nonneg p2 p4).
  destruct (Rlt_dec 0 (euclidean p1 p5 + euclidean p2 p4)); [reflexivity | lra].
Qed.

(** The sum of the two heights vanishes only when both pairs coincide. *)
Lemma heights_zero_iff (p1 p2 p4 p5 : point) :
  euclidean p1 p5 + euclidean p2 p4 = 0 <-> p1 = p5 /\ p2 = p4.
Proof.
  pose proof (euclidean_nonneg p1 p5). pose proof (euclidean_nonneg p2 p4).
  rewrite <- !euclidean_zero_iff. split; [intros; split; lra | intros [-> ->]; lra].
Qed.

End Ratio.

(** ** One face *)

Section OneFace.
Import Py Blink.
Local Open Scope R_scope.

Variable EAR_THRESHOLD : R.
Variable SMOOTHING_WINDOW : nat.
Variable MIN_CLOSE_DURATION : R.

Let process_face := Blink.process_face EAR_THRESHOLD SMOOTHING_WINDOW MIN_CLOSE_DURATION.
Let update_blink := Blink.update_blink EAR_THRESHOLD MIN_CLOSE_DURATION.

Lemma left_eye_points (f : face) :
  map (part f) (range 36 42) =
  [part f 36%Z; part f 37%Z; part f 38%Z; part f 39%Z; part f 40%Z; part f 41%Z].
Proof. reflexivity. Qed.

Lemma right_eye_points (f : face) :
  map (part f) (range 42 48) =
  [part f 42%Z; part f 43%Z; part f 44%Z; part f 45%Z; part f 46%Z; part f 47%Z].
Proof. reflexivity. Qed.

(** What [process_face] does, in one equation: the sample is appended,
    then either the mean cannot be formed or the detector is updated with
    it. *)
Lemma process_face_eq (f : face) (w : world) :
  process_face f w =
  let w1 := set_buffer w (deque_append SMOOTHING_WINDOW (ear_buffer w) (avg_ear f)) in
  match sum_div_len (ear_buffer w1) with
  | inl smoothed => (inl tt, update_blink smoothed (clock f) w1)
  | inr e => (inr e, w1)
  end.
Proof.
  unfold process_face, Blink.process_face.
  rewrite left_eye_points, right_eye_points, !calculate_ear_six.
  cbv beta iota zeta delta [bind lift get modify buffer_append fst snd].
  reflexivity.
Qed.

(** [update_blink] leaves everything but the detector's three variables. *)
Lemma update_blink_frame (s : pyfloat) (now : R) (w : world) :
  ear_buffer (update_blink s now w) = ear_buffer w /\
  log_file (update_blink s now w) = log_file w /\
  console (update_blink s now w) = console w /\
  frames_read (update_blink s now w) = frames_read w.
Proof.
  unfold update_blink, Blink.update_blink.
  destruct (fltb s (Fin EAR_THRESHOLD) && (blink_state w =? 0)%Z);
    [ | destruct (fgtb s (Fin EAR_THRESHOLD) && (blink_state w =? 1)%Z) ];
    cbn; auto.
Qed.

(** The count moves by 0 or 1, and it moves only on a step from closed
    to open. *)
Lemma update_blink_count (s : pyfloat) (now : R) (w : world) :
  (blink_count (update_blink s now w) = blink_count w \/
   (blink_count (update_blink s now w) = blink_count w + 1 /\
    blink_state w = CLOSED /\ blink_state (update_blink s now w) = OPEN))%Z.
Proof.
  unfold update_blink, Blink.update_blink.
  destruct (fltb s (Fin EAR_THRESHOLD) && (blink_state w =? 0)%Z); [left; reflexivity | ].
  destruct (fgtb s (Fin EAR_THRESHOLD) && (blink_state w =? 1)%Z) eqn:Hopen;
    [ | left; reflexivity ].
  apply andb_prop in Hopen. destruct Hopen as [_ Hst]. apply Z.eqb_eq in Hst.
  cbn. destruct (close_start_time w) as [t0 | ]; [ | left; reflexivity ].
  destruct (Rleb MIN_CLOSE_DURATION (now - t0)); [right | left]; auto.
Qed.

(** [detector_ok] is kept by every update. *)
Lemma update_blink_ok (s : pyfloat) (now : R) (w : world) :
  detector_ok w -> detector_ok (update_blink s now w).
Proof.
  unfold update_blink, Blink.update_blink, detector_ok, OPEN, CLOSED.
  intros Hok.
  destruct (fltb s (Fin EAR_THRESHOLD) && (blink_state w =? 0)%Z).
  - right. cbn. split; [reflexivity | exists now; reflexivity].
  - destruct (fgtb s (Fin EAR_THRESHOLD) && (blink_state w =? 1)%Z).
    + left. cbn. split; reflexivity.
    + exact Hok.
Qed.

(** Every face's sample goes into the buffer, whatever its value. *)
Lemma process_face_buffer (f : face) (w : world) :
  ear_buffer (exec (process_face f) w) =
  deque_append SMOOTHING_WINDOW (ear_buffer w) (avg_ear f).
Proof.
  unfold exec. rewrite process_face_eq. cbv zeta.
  destruct (sum_div_len _) as [sm | e]; cbn [snd].
  - fold update_blink. destruct (update_blink_frame sm (clock f)
      (set_buffer w (deque_append SMOOTHING_WINDOW (ear_buffer w) (avg_ear f))))
      as [Hb _]. exact Hb.
  - reflexivity.
Qed.

Lemma process_face_frame (f : face) (w : world) :
  log_file (exec (process_face f) w) = log_file w /\
  console (exec (process_face f) w) = console w /\
  frames_read (exec (process_face f) w) = frames_read w.
Proof.
  unfold exec. rewrite process_face_eq. cbv zeta.
  destruct (sum_div_len _) as [sm | e]; cbn [snd].
  - destruct (update_blink_frame sm (clock f)
      (set_buffer w (deque_append SMOOTHING_WINDOW (ear_buffer w) (avg_ear f))))
      as (_ & Hl & Hc & Hf). auto.
  - auto.
Qed.

Lemma process_face_count (f : face) (w : world) :
  (blink_count (exec (process_face f) w) = blink_count w \/
   (blink_count (exec (process_face f) w) = blink_count w + 1 /\
    blink_state w = CLOSED /\ blink_state (exec (process_face f) w) = OPEN))%Z.
Proof.
  unfold exec. rewrite process_face_eq. cbv zeta.
  destruct (sum_div_len _) as [sm | e]; cbn [snd].
  - apply (update_blink_count sm (clock f)
      (set_buffer w (deque_append SMOOTHING_WINDOW (ear_buffer w) (avg_ear f)))).
  - left. reflexivity.
Qed.

Lemma process_face_ok (f : face) (w : world) :
  detector_ok w -> detector_ok (exec (process_face f) w).
Proof.
  intros Hok. unfold exec. rewrite process_face_eq. cbv zeta.
  destruct (sum_div_len _) as [sm | e]; cbn [snd].
  - apply update_blink_ok. exact Hok.
  - exact Hok.
Qed.

Lemma deque_append_nonempty {A : Type} (n : nat) (d : list A) (x : A) :
  deque_append (S n) d x <> [].
Proof.
  unfold deque_append. destruct (Nat.ltb (length d) (S n));
    intros H; apply app_eq_nil in H; destruct H; discriminate.
Qed.

(** With a window of at least one sample nothing is raised. *)
Lemma process_face_returns (f : face) (w : world) :
  (0 < SMOOTHING_WINDOW)%nat -> fst (process_face f w) = inl tt.
Proof.
  intros HW. rewrite process_face_eq. cbv zeta.
  destruct SMOOTHING_WINDOW as [ | n]; [lia | ].
  unfold set_buffer at 1. cbn [ear_buffer].
  pose proof (deque_append_nonempty n (ear_buffer w) (avg_ear f)) as Hne.
  unfold sum_div_len. destruct (deque_append (S n) (ear_buffer w) (avg_ear f));
    [contradiction | reflexivity].
Qed.

End OneFace.

(** ** The blink detector *)

Section Detector.
Import Py Blink.
Local Open Scope R_scope.

(** C4. For every smoothed ratio [s], clock reading and detector state:
    an open detector closes exactly when [s < EAR_THRESHOLD], and then
    records the clock reading as [close_start_time]; a closed detector
    opens exactly when [s > EAR_THRESHOLD]; with [s] equal to the
    threshold nothing changes in either state; the detector starts open. *)
Theorem blink_transitions (EAR_THRESHOLD MIN_CLOSE_DURATION : R)
    (s : pyfloat) (now : R) (w : world) :
  let w' := update_blink EAR_THRESHOLD MIN_CLOSE_DURATION s now w in
  (blink_state w = OPEN ->
     (blink_state w' = CLOSED <-> fltb s (Fin EAR_THRESHOLD) = true) /\
     (blink_state w' = CLOSED -> close_start_time w' = Some now)) /\
  (blink_state w = CLOSED ->
     (blink_state w' = OPEN <-> fgtb s (Fin EAR_THRESHOLD) = true)) /\
  (s = Fin EAR_THRESHOLD -> w' = w) /\
  (forall old_log, blink_state (initial_world old_log) = OPEN).
Proof.
  assert (Hirr : s = Fin EAR_THRESHOLD ->
                 fltb s (Fin EAR_THRESHOLD) = false /\
                 fgtb s (Fin EAR_THRESHOLD) = false).
  { intros ->. unfold fgtb, fltb, Rltb.
    destruct (Rlt_dec EAR_THRESHOLD EAR_THRESHOLD); [lra | auto]. }
  unfold update_blink, OPEN, CLOSED. cbv zeta.
  destruct (fltb s (Fin EAR_THRESHOLD)) eqn:Hlt;
    destruct (fgtb s (Fin EAR_THRESHOLD)) eqn:Hgt;
    destruct (Z.eqb_spec (blink_state w) 0) as [E0 | E0];
    destruct (Z.eqb_spec (blink_state w) 1) as [E1 | E1];
    cbn [andb blink_state close_start_time];
    try (exfalso; lia);
    (split; [ intros H0; split; [split; intros; (congruence || lia) | intros; (congruence || lia)]
            | split; [ intros H1; split; intros; (congruence || lia)
                     | split; [ intros Hs; destruct (Hirr Hs); congruence
                              | reflexivity ] ] ]).
Qed.

(** C3. On every step of the detector from closed to open, with
    [close_start_time] holding [t0] and the clock reading [now], the count
    grows by exactly 1 if and only if [now - t0 >= MIN_CLOSE_DURATION] and
    is left as it was otherwise; so a dip shorter than
    [MIN_CLOSE_DURATION] is not counted, and with [MIN_CLOSE_DURATION = 0]
    every dip is, whatever its (non-negative) duration.  The start time
    is cleared in both cases. *)
Theorem closed_to_open_count (EAR_THRESHOLD MIN_CLOSE_DURATION : R)
    (s : pyfloat) (now t0 : R) (w : world) :
  let w' := update_blink EAR_THRESHOLD MIN_CLOSE_DURATION s now w in
  blink_state w = CLOSED ->
  blink_state w' = OPEN ->
  close_start_time w = Some t0 ->
  (blink_count w' = (blink_count w + 1)%Z <-> MIN_CLOSE_DURATION <= now - t0) /\
  (blink_count w' = blink_count w <-> now - t0 < MIN_CLOSE_DURATION) /\
  (MIN_CLOSE_DURATION = 0 -> t0 <= now -> blink_count w' = (blink_count w + 1)%Z) /\
  close_start_time w' = None.
Proof.
  unfold update_blink, OPEN, CLOSED. cbv zeta. intros Hc Ho Ht0.
  rewrite Hc in *. cbn [Z.eqb] in *. rewrite andb_false_r, andb_true_r in *.
  destruct (fgtb s (Fin EAR_THRESHOLD)).
  - cbn [blink_count close_start_time]. rewrite Ht0. unfold Rleb.
    destruct (Rle_dec MIN_CLOSE_DURATION (now - t0)) as [Hle | Hlt].
    + repeat split; intros; try lra; try lia.
    + repeat split; intros; try lra; try lia.
  - rewrite Hc in Ho. discriminate.
Qed.

End Detector.

(** ** All the faces of a frame *)

Section ManyFaces.
Import Py Blink.

Variable EAR_THRESHOLD : R.
Variable SMOOTHING_WINDOW : nat.
Variable MIN_CLOSE_DURATION : R.

Let process_face := Blink.process_face EAR_THRESHOLD SMOOTHING_WINDOW MIN_CLOSE_DURATION.
Let process_faces := Blink.process_faces EAR_THRESHOLD SMOOTHING_WINDOW MIN_CLOSE_DURATION.

Lemma process_faces_nil (w : world) : process_faces [] w = (inl tt, w).
Proof. reflexivity. Qed.

Lemma process_faces_cons (f : face) (fs : list face) (w : world) :
  exec (process_faces (f :: fs)) w =
  match fst (process_face f w) with
  | inl _ => exec (process_faces fs) (exec (process_face f) w)
  | inr _ => exec (process_face f) w
  end.
Proof.
  unfold process_faces, Blink.process_faces. cbn [for_each].
  rewrite exec_bind. reflexivity.
Qed.

Lemma process_faces_frame (fs : list face) (w : world) :
  log_file (exec (process_faces fs) w) = log_file w /\
  console (exec (process_faces fs) w) = console w /\
  frames_read (exec (process_faces fs) w) = frames_read w.
Proof.
  revert w. induction fs as [ | f fs IH]; intros w.
  - auto.
  - rewrite process_faces_cons.
    destruct (process_face_frame EAR_THRESHOLD SMOOTHING_WINDOW MIN_CLOSE_DURATION f w)
      as (Hl & Hc & Hf). fold process_face in Hl, Hc, Hf.
    destruct (fst (process_face f w)).
    + destruct (IH (exec (process_face f) w)) as (Hl' & Hc' & Hf').
      rewrite Hl', Hc', Hf'. auto.
    + auto.
Qed.

(** The count never goes down over the faces of a frame and goes up by
    at most one per face. *)
Lemma process_faces_count (fs : list face) (w : world) :
  (blink_count w <= blink_count (exec (process_faces fs) w)
   <= blink_count w + Z.of_nat (length fs))%Z.
Proof.
  revert w. induction fs as [ | f fs IH]; intros w.
  - cbn. lia.
  - rewrite process_faces_cons.
    pose proof (process_face_count EAR_THRESHOLD SMOOTHING_WINDOW MIN_CLOSE_DURATION f w)
      as Hone. fold process_face in Hone.
    cbn [length]. destruct (fst (process_face f w)).
    + specialize (IH (exec (process_face f) w)). lia.
    + lia.
Qed.

Lemma process_faces_ok (fs : list face) (w : world) :
  detector_ok w -> detector_ok (exec (process_faces fs) w).
Proof.
  revert w. induction fs as [ | f fs IH]; intros w Hok.
  - exact Hok.
  - rewrite process_faces_cons.
    pose proof (process_face_ok EAR_THRESHOLD SMOOTHING_WINDOW MIN_CLOSE_DURATION f w Hok)
      as Hone. fold process_face in Hone.
    destruct (fst (process_face f w)); auto.
Qed.

Lemma process_faces_returns (fs : list face) (w : world) :
  (0 < SMOOTHING_WINDOW)%nat -> fst (process_faces fs w) = inl tt.
Proof.
  intros HW. revert w. induction fs as [ | f fs IH]; intros w.
  - reflexivity.
  - unfold process_faces, Blink.process_faces. cbn [for_each].
    rewrite fst_bind.
    pose proof (process_face_returns EAR_THRESHOLD SMOOTHING_WINDOW MIN_CLOSE_DURATION f w HW)
      as Hone.
    rewrite Hone. apply IH.
Qed.

Lemma feed_empty_window {A : Type} (xs : list A) (d : list A) :
  fold_left (deque_append 0) xs d = d.
Proof. induction xs as [ | x xs IH]; [reflexivity | exact IH]. Qed.

(** The buffer after a frame: the samples of its faces, appended in
    order. *)
Lemma process_faces_buffer (fs : list face) (w : world) :
  ear_buffer (exec (process_faces fs) w) =
  fold_left (deque_append SMOOTHING_WINDOW) (map avg_ear fs) (ear_buffer w).
Proof.
  revert w. induction fs as [ | f fs IH]; intros w.
  - reflexivity.
  - rewrite process_faces_cons. cbn [map fold_left].
    pose proof (process_face_buffer EAR_THRESHOLD SMOOTHING_WINDOW MIN_CLOSE_DURATION f w)
      as Hone. fold process_face in Hone.
    destruct (fst (process_face f w)) as [u | e] eqn:Hres.
    + rewrite IH, Hone. reflexivity.
    + rewrite Hone. destruct SMOOTHING_WINDOW as [ | n] eqn:HW.
      * rewrite feed_empty_window. reflexivity.
      * pose proof (process_face_returns EAR_THRESHOLD (S n) MIN_CLOSE_DURATION f w) as Hr.
        unfold process_face in Hres. rewrite Hr in Hres by lia. discriminate.
Qed.

End ManyFaces.

(** ** main.py: one pass and the loop *)

Section MainLoop.
Import Py.

Let process_faces :=
  Blink.process_faces Main.EAR_THRESHOLD Main.SMOOTHING_WINDOW Main.MIN_CLOSE_DURATION.

Lemma main_window_positive : (0 < Main.SMOOTHING_WINDOW)%nat.
Proof. unfold Main.SMOOTHING_WINDOW. lia. Qed.

(** One pass, in one equation: no frame ends the loop with nothing
    written; otherwise the faces are processed and one line is written
    with the count they leave. *)
Lemma main_iteration_eq (t : Main.tick) (w : world) :
  Main.iteration t w =
  match Main.frame t with
  | None => (inl false, read_frame w)
  | Some faces =>
      let w2 := exec (process_faces faces) (read_frame w) in
      (inl (negb (quit_pressed (Main.wait_key t))),
       append_log w2
         (Main.log_line (Main.timestamp t) (Main.cursor t)
            (Main.sample_action (Main.GetKeyState t)) (blink_count w2)))
  end.
Proof.
  unfold Main.iteration, cap_read.
  cbv beta iota delta [bind modify ret fst snd].
  fold (read_frame w).
  destruct (Main.frame t) as [faces | ]; [ | reflexivity].
  fold process_faces. cbv zeta. unfold exec.
  pose proof (process_faces_returns Main.EAR_THRESHOLD Main.SMOOTHING_WINDOW
                Main.MIN_CLOSE_DURATION faces (read_frame w) main_window_positive) as Hr.
  fold process_faces in Hr.
  destruct (process_faces faces (read_frame w)) as [[u | e] w2]; cbn [fst snd] in *.
  - unfold get, log_write, modify. cbn [fst snd].
    destruct (quit_pressed (Main.wait_key t)); reflexivity.
  - discriminate.
Qed.

Lemma main_iteration_count (t : Main.tick) (w : world) :
  (blink_count w <= blink_count (exec (Main.iteration t) w)
   <= blink_count w + Z.of_nat (faces_in (Main.frame t)))%Z.
Proof.
  unfold exec. rewrite main_iteration_eq.
  destruct (Main.frame t) as [faces | ]; cbn [snd faces_in blink_count append_log read_frame].
  - apply (process_faces_count Main.EAR_THRESHOLD Main.SMOOTHING_WINDOW
             Main.MIN_CLOSE_DURATION faces (read_frame w)).
  - lia.
Qed.

Lemma main_iteration_ok (t : Main.tick) (w : world) :
  detector_ok w -> detector_ok (exec (Main.iteration t) w).
Proof.
  intros Hok. unfold exec. rewrite main_iteration_eq.
  destruct (Main.frame t) as [faces | ]; cbn [snd].
  - apply (process_faces_ok Main.EAR_THRESHOLD Main.SMOOTHING_WINDOW
             Main.MIN_CLOSE_DURATION faces (read_frame w)). exact Hok.
  - exact Hok.
Qed.

End MainLoop.

(** ** xbox.py: one pass and the loop *)

Section XboxLoop.
Import Py.

Let process_faces :=
  Blink.process_faces Xbox.EAR_THRESHOLD Xbox.SMOOTHING_WINDOW Xbox.MIN_CLOSE_DURATION.

Lemma xbox_window_positive : (0 < Xbox.SMOOTHING_WINDOW)%nat.
Proof. unfold Xbox.SMOOTHING_WINDOW. lia. Qed.

Lemma xbox_iteration_eq (t : Xbox.tick) (w : world) :
  Xbox.iteration t w =
  match Xbox.frame t with
  | None => (inl false, read_frame w)
  | Some faces =>
      let w2 := exec (process_faces faces) (read_frame w) in
      (inl (negb (quit_pressed (Xbox.wait_key t))),
       append_log w2
         (Xbox.log_text (Xbox.timestamp t)
            (Xbox.get_axis t 0%Z) (Xbox.get_axis t 1%Z)
            (Xbox.get_axis t 4%Z) (Xbox.get_axis t 5%Z)
            (Xbox.sample_action (Xbox.get_button t)) (blink_count w2)))
  end.
Proof.
  unfold Xbox.iteration, cap_read.
  cbv beta iota delta [bind modify ret fst snd].
  fold (read_frame w).
  destruct (Xbox.frame t) as [faces | ]; [ | reflexivity].
  fold process_faces. cbv zeta. unfold exec.
  pose proof (process_faces_returns Xbox.EAR_THRESHOLD Xbox.SMOOTHING_WINDOW
                Xbox.MIN_CLOSE_DURATION faces (read_frame w) xbox_window_positive) as Hr.
  fold process_faces in Hr.
  destruct (process_faces faces (read_frame w)) as [[u | e] w2]; cbn [fst snd] in *.
  - unfold get, log_write, modify. cbn [fst snd].
    destruct (quit_pressed (Xbox.wait_key t)); reflexivity.
  - discriminate.
Qed.

Lemma xbox_iteration_count (t : Xbox.tick) (w : world) :
  (blink_count w <= blink_count (exec (Xbox.iteration t) w)
   <= blink_count w + Z.of_nat (faces_in (Xbox.frame t)))%Z.
Proof.
  unfold exec. rewrite xbox_iteration_eq.
  destruct (Xbox.frame t) as [faces | ]; cbn [snd faces_in blink_count append_log read_frame].
  - apply (process_faces_count Xbox.EAR_THRESHOLD Xbox.SMOOTHING_WINDOW
             Xbox.MIN_CLOSE_DURATION faces (read_frame w)).
  - lia.
Qed.

Lemma xbox_iteration_ok (t : Xbox.tick) (w : world) :
  detector_ok w -> detector_ok (exec (Xbox.iteration t) w).
Proof.
  intros Hok. unfold exec. rewrite xbox_iteration_eq.
  destruct (Xbox.frame t) as [faces | ]; cbn [snd].
  - apply (process_faces_ok Xbox.EAR_THRESHOLD Xbox.SMOOTHING_WINDOW
             Xbox.MIN_CLOSE_DURATION faces (read_frame w)). exact Hok.
  - exact Hok.
Qed.

End XboxLoop.

(** ** The count along a run *)

Section Counting.
Import Py.

Let count_le (a b : world) : Prop := (blink_count a <= blink_count b)%Z.

Lemma main_loop_count (ticks more : list Main.tick) (w : world) :
  (blink_count w <= blink_count (exec (Main.track_actions ticks) w))%Z /\
  (blink_count (exec (Main.track_actions ticks) w)
   <= blink_count (exec (Main.track_actions (ticks ++ more)) w))%Z.
Proof.
  unfold Main.track_actions. split.
  - apply (while_true_rel Main.tick Main.iteration count_le); unfold count_le; intros.
    + lia.
    + lia.
    + apply main_iteration_count.
  - apply (while_true_rel_prefix Main.tick Main.iteration count_le); unfold count_le; intros.
    + lia.
    + lia.
    + apply main_iteration_count.
Qed.

Lemma xbox_loop_count (ticks more : list Xbox.tick) (w : world) :
  (blink_count w <= blink_count (exec (while_true Xbox.iteration ticks) w))%Z /\
  (blink_count (exec (while_true Xbox.iteration ticks) w)
   <= blink_count (exec (while_true Xbox.iteration (ticks ++ more)) w))%Z.
Proof.
  split.
  - apply (while_true_rel Xbox.tick Xbox.iteration count_le); unfold count_le; intros.
    + lia.
    + lia.
    + apply xbox_iteration_count.
  - apply (while_true_rel_prefix Xbox.tick Xbox.iteration count_le); unfold count_le; intros.
    + lia.
    + lia.
    + apply xbox_iteration_count.
Qed.

(** C7. The count starts at 0 and, in both variants, never goes down:
    whatever the passes of a run bring (faces or none, any ratios, any
    clock readings), the count after them is at least the count before,
    and the count after more passes is at least the count after fewer. *)
Theorem blink_count_monotone :
  (forall old_log, blink_count (initial_world old_log) = 0%Z) /\
  (forall (ticks more : list Main.tick) (w : world),
     (blink_count w <= blink_count (exec (Main.track_actions ticks) w))%Z /\
     (blink_count (exec (Main.track_actions ticks) w)
      <= blink_count (exec (Main.track_actions (ticks ++ more)) w))%Z) /\
  (forall (joysticks : Z) (ticks more : list Xbox.tick) (w : world),
     (blink_count w <= blink_count (exec (Xbox.track_actions joysticks ticks) w))%Z /\
     (blink_count (exec (Xbox.track_actions joysticks ticks) w)
      <= blink_count (exec (Xbox.track_actions joysticks (ticks ++ more)) w))%Z).
Proof.
  split; [reflexivity | split].
  - apply main_loop_count.
  - intros joysticks ticks more w. unfold Xbox.track_actions.
    destruct (joysticks =? 0)%Z.
    + cbn. lia.
    + apply xbox_loop_count.
Qed.

(** C10. One face moves the count by 0 or by 1, and by 1 only on a step
    from closed to open; a frame with F faces moves it by at most F; one
    pass of either loop moves it by at most the number of faces in its
    frame, so by at most 1 between two log lines when frames hold at
    most one face. *)
Theorem blink_count_step_bound :
  (forall (EAR_THRESHOLD : R) (SMOOTHING_WINDOW : nat) (MIN_CLOSE_DURATION : R)
          (f : Blink.face) (w : world),
     let w' := exec (Blink.process_face EAR_THRESHOLD SMOOTHING_WINDOW
                       MIN_CLOSE_DURATION f) w in
     blink_count w' = blink_count w \/
     (blink_count w' = (blink_count w + 1)%Z /\
      blink_state w = CLOSED /\ blink_state w' = OPEN)) /\
  (forall (EAR_THRESHOLD : R) (SMOOTHING_WINDOW : nat) (MIN_CLOSE_DURATION : R)
          (faces : list Blink.face) (w : world),
     let w' := exec (Blink.process_faces EAR_THRESHOLD SMOOTHING_WINDOW
                       MIN_CLOSE_DURATION faces) w in
     (blink_count w <= blink_count w' <= blink_count w + Z.of_nat (length faces))%Z) /\
  (forall (t : Main.tick) (w : world),
     let w' := exec (Main.iteration t) w in
     (blink_count w <= blink_count w'
      <= blink_count w + Z.of_nat (faces_in (Main.frame t)))%Z /\
     ((faces_in (Main.frame t) <= 1)%nat ->
      (blink_count w' <= blink_count w + 1)%Z)) /\
  (forall (t : Xbox.tick) (w : world),
     let w' := exec (Xbox.iteration t) w in
     (blink_count w <= blink_count w'
      <= blink_count w + Z.of_nat (faces_in (Xbox.frame t)))%Z /\
     ((faces_in (Xbox.frame t) <= 1)%nat ->
      (blink_count w' <= blink_count w + 1)%Z)).
Proof.
  repeat apply conj.
  - intros. apply process_face_count.
  - intros. apply process_faces_count.
  - intros t w. pose proof (main_iteration_count t w). cbv zeta. split; [assumption | lia].
  - intros t w. pose proof (xbox_iteration_count t w). cbv zeta. split; [assumption | lia].
Qed.

End Counting.

(** ** What every reachable world satisfies *)

Section Reachable.

Let keeps_ok (a b : world) : Prop := detector_ok a -> detector_ok b.

Lemma detector_ok_initial (old_log : list string) : detector_ok (initial_world old_log).
Proof. left. split; reflexivity. Qed.

Lemma main_run_ok (ticks : list Main.tick) (old_log : list string) :
  detector_ok (exec (Main.track_actions ticks) (initial_world old_log)).
Proof.
  apply (while_true_rel Main.tick Main.iteration keeps_ok); unfold keeps_ok.
  - auto.
  - auto.
  - intros t w. apply main_iteration_ok.
  - apply detector_ok_initial.
Qed.

Lemma xbox_run_ok (joysticks : Z) (ticks : list Xbox.tick) (old_log : list string) :
  detector_ok (exec (Xbox.track_actions joysticks ticks) (initial_world old_log)).
Proof.
  unfold Xbox.track_actions. destruct (joysticks =? 0)%Z.
  - left. split; reflexivity.
  - apply (while_true_rel Xbox.tick Xbox.iteration keeps_ok); unfold keeps_ok.
    + auto.
    + auto.
    + intros t w. apply xbox_iteration_ok.
    + apply detector_ok_initial.
Qed.

(** With a joystick connected the loop does start: the first pass reads
    a frame. *)
Lemma gamepad_present_reads (joysticks : Z) (t : Xbox.tick) (w : world) :
  joysticks <> 0%Z ->
  frames_read (exec (Xbox.track_actions joysticks [t]) w) = S (frames_read w).
Proof.
  intros Hj. unfold Xbox.track_actions.
  destruct (Z.eqb_spec joysticks 0) as [E | _]; [contradiction | ].
  rewrite while_true_cons.
  assert (Hread : frames_read (exec (Xbox.iteration t) w) = S (frames_read w)).
  { unfold exec. rewrite xbox_iteration_eq.
    destruct (Xbox.frame t) as [faces | ]; [ | reflexivity].
    cbv zeta. cbn [snd append_log frames_read].
    destruct (process_faces_frame Xbox.EAR_THRESHOLD Xbox.SMOOTHING_WINDOW
                Xbox.MIN_CLOSE_DURATION faces (read_frame w)) as (_ & _ & Hf).
    rewrite Hf. reflexivity. }
  destruct (fst (Xbox.iteration t w)) as [[ | ] | e]; exact Hread.
Qed.

End Reachable.

(** ** Frames without a face, runs without a gamepad *)

Section Holding.
Import Py.

(** C9. With no joystick connected, the gamepad variant prints its
    message once and returns: [cap.read()] is never called, nothing is
    written to the log, and the detector is untouched, whatever the
    camera would have delivered; it is the missing joystick that keeps
    the loop from starting, since with one connected the first pass reads
    a frame. *)
Theorem no_gamepad_no_loop (ticks : list Xbox.tick) (w : world) :
  let w' := exec (Xbox.track_actions 0 ticks) w in
  fst (Xbox.track_actions 0 ticks w) = inl tt /\
  console w' = console w ++ ["No controllers connected."%string] /\
  frames_read w' = frames_read w /\
  log_file w' = log_file w /\
  detector_of w' = detector_of w /\
  (forall (joysticks : Z) (t : Xbox.tick),
     joysticks <> 0%Z ->
     frames_read (exec (Xbox.track_actions joysticks [t]) w) = S (frames_read w)).
Proof.
  cbv zeta. unfold Xbox.track_actions at 1 2 3 4 5. cbn [Z.eqb].
  repeat split. intros joysticks t Hj. apply gamepad_present_reads. exact Hj.
Qed.

End Holding.

(** ** The smoothing filter *)

Section Smoothing.
Import Py.
Local Open Scope R_scope.

Lemma feed_last_n {A : Type} (W : nat) (samples buffer : list A) :
  (0 < W)%nat -> (length buffer <= W)%nat ->
  feed W buffer samples = last_n W (buffer ++ samples).
Proof.
  intros HW. unfold feed, last_n. revert buffer.
  induction samples as [ | x rest IH]; intros buffer Hlen.
  - rewrite app_nil_r. replace (length buffer - W)%nat with 0%nat by lia. reflexivity.
  - cbn [fold_left]. unfold deque_append at 2.
    destruct W as [ | n]; [lia | ].
    destruct (Nat.ltb_spec (length buffer) (S n)) as [Hlt | Hge].
    + rewrite IH by (rewrite length_app; cbn; lia).
      rewrite <- app_assoc. reflexivity.
    + destruct buffer as [ | a buffer]; [cbn in Hge; lia | ].
      cbn [tl]. cbn [length] in Hlen, Hge.
      rewrite IH by (rewrite length_app; cbn; lia).
      rewrite <- !app_assoc. cbn [app].
      set (L := buffer ++ x :: rest).
      assert (HL : (S n <= length L)%nat)
        by (unfold L; rewrite length_app; cbn [length]; lia).
      replace (length (a :: L) - S n)%nat with (S (length L - S n))%nat
        by (cbn [length]; lia).
      reflexivity.
Qed.

Lemma py_sum_finite (xs : list R) (a : R) :
  fold_left fadd (map Fin xs) (Fin a) = Fin (a + fold_right Rplus 0 xs).
Proof.
  revert a. induction xs as [ | x xs IH]; intros a; cbn [map fold_left fold_right].
  - f_equal. lra.
  - cbn [fadd]. rewrite IH. f_equal. lra.
Qed.

Lemma sum_div_len_finite (xs : list R) :
  xs <> [] ->
  sum_div_len (map Fin xs) = inl (Fin (arithmetic_mean xs)).
Proof.
  intros Hne. destruct xs as [ | x xs]; [contradiction | ].
  unfold sum_div_len, py_sum, arithmetic_mean.
  cbn [map]. rewrite <- (map_cons Fin x xs), py_sum_finite, length_map.
  rewrite fdiv_fin_nonzero.
  - rewrite Rplus_0_l. reflexivity.
  - apply not_0_INR. cbn [length]. lia.
Qed.

Lemma last_n_nonempty {A : Type} (W : nat) (xs : list A) :
  (0 < W)%nat -> xs <> [] -> last_n W xs <> [].
Proof.
  intros HW Hne Hnil. unfold last_n in Hnil.
  assert (Hlen : length (skipn (length xs - W) xs) = 0%nat) by (rewrite Hnil; reflexivity).
  rewrite length_skipn in Hlen.
  destruct xs; [contradiction | cbn [length] in Hlen; lia].
Qed.

End Smoothing.

(** ** The action of the pointer and keyboard variant *)

Section Action.
Import Py win32con.
Local Open Scope string_scope.

Lemma find_append {A : Type} (p : A -> bool) (xs ys : list A) :
  find p (xs ++ ys) =
  match find p xs with
  | Some x => Some x
  | None => find p ys
  end.
Proof.
  induction xs as [ | x xs IH]; [reflexivity | ].
  cbn [app find]. destruct (p x); [reflexivity | exact IH].
Qed.

Lemma scan_from_last (key_state : Z -> Z) (keys : list (Z * string)) (action : string) :
  fold_left
    (fun action (entry : Z * string) =>
       let (vk, name) := entry in
       if (key_state vk <? 0)%Z then name else action) keys action =
  match last_pressed key_state keys with
  | Some name => name
  | None => action
  end.
Proof.
  unfold last_pressed, first_pressed, pressed.
  revert action. induction keys as [ | [vk name] keys IH]; intros action.
  - reflexivity.
  - cbn [fold_left rev]. rewrite IH, find_append.
    destruct (find _ (rev keys)) as [[vk' name'] | ]; [reflexivity | ].
    cbn [find fst option_map snd].
    destruct (key_state vk <? 0)%Z; reflexivity.
Qed.

(** What the code computes: the buttons first, then the LAST key of
    [key_map] that is down. *)
Lemma sample_action_eq (key_state : Z -> Z) :
  Main.sample_action key_state =
  if pressed key_state VK_LBUTTON then "Left Click"
  else if pressed key_state VK_RBUTTON then "Right Click"
  else match last_pressed key_state Main.key_map with
       | Some name => name
       | None => "None"
       end.
Proof.
  unfold Main.sample_action, Main.scan_keys, pressed.
  destruct (key_state VK_LBUTTON <? 0)%Z; [reflexivity | ].
  destruct (key_state VK_RBUTTON <? 0)%Z; [reflexivity | ].
  apply scan_from_last.
Qed.

(** The buttons outrank the keys, and without any press the label is
    "None": on these the code and the specification agree. *)
Lemma sample_action_buttons (key_state : Z -> Z) :
  (pressed key_state VK_LBUTTON = true -> Main.sample_action key_state = "Left Click") /\
  (pressed key_state VK_LBUTTON = false -> pressed key_state VK_RBUTTON = true ->
   Main.sample_action key_state = "Right Click") /\
  ((forall vk, pressed key_state vk = false) -> Main.sample_action key_state = "None").
Proof.
  rewrite sample_action_eq. repeat split.
  - intros ->. reflexivity.
  - intros -> ->. reflexivity.
  - intros Hnone. rewrite !Hnone. unfold last_pressed, first_pressed.
    destruct (find _ (rev Main.key_map)) as [[vk name] | ] eqn:Hfind; [ | reflexivity].
    apply find_some in Hfind. destruct Hfind as [_ Hp]. cbn [fst] in Hp.
    rewrite Hnone in Hp. discriminate.
Qed.

(** C1, at the input where the code and the specification part: with W
    and A down and no mouse button, the first pressed key of [key_map] is
    W, which is the label the specification asks for, and the code logs
    A. *)
Theorem sample_action_last_key_wins :
  spec_action (keys_down [0x57; 0x41]%Z) = "W" /\
  Main.sample_action (keys_down [0x57; 0x41]%Z) = "A".
Proof. split; reflexivity. Qed.

End Action.

(** ** The log line of the gamepad variant *)

Section Formatting.
Import Py.
Local Open Scope Z_scope.

Lemma round_half_even_nearest (num den : Z) :
  0 < den ->
  - den <= 2 * (num - den * round_half_even num den) <= den.
Proof.
  intros Hden. unfold round_half_even.
  pose proof (Z.div_mod num den ltac:(lia)) as Hdm.
  pose proof (Z.mod_pos_bound num den Hden) as Hr.
  destruct (Z.compare_spec (2 * (num mod den)) den);
    [destruct (Z.even (num / den)) | | ]; nia.
Qed.

Lemma round_half_even_nonneg (num den : Z) :
  0 <= num -> 0 < den -> 0 <= round_half_even num den.
Proof.
  intros Hnum Hden. unfold round_half_even.
  pose proof (Z.div_pos num den Hnum Hden).
  destruct (2 * (num mod den) ?= den); [destruct (Z.even (num / den)) | | ]; lia.
Qed.

Lemma hundredths_nonneg (m : positive) (e : Z) : 0 <= hundredths m e.
Proof.
  unfold hundredths. destruct (Z.leb_spec 0 e) as [He | He].
  - pose proof (Z.pow_nonneg 2 e ltac:(lia)). nia.
  - apply round_half_even_nonneg; [lia | ].
    apply Z.pow_pos_nonneg; lia.
Qed.

Lemma digit_is_digit (k : Z) : 0 <= k <= 9 -> is_digit (digit k) = true.
Proof.
  intros Hk.
  assert (Hcases : k = 0 \/ k = 1 \/ k = 2 \/ k = 3 \/ k = 4 \/
                   k = 5 \/ k = 6 \/ k = 7 \/ k = 8 \/ k = 9) by lia.
  repeat (destruct Hcases as [-> | Hcases]; [reflexivity | ]).
  subst k. reflexivity.
Qed.

Lemma uint_all_digits (d : Decimal.uint) :
  all_digits (NilEmpty.string_of_uint d) = true.
Proof. induction d; cbn; auto. Qed.

Lemma str_int_digits (n : Z) :
  0 <= n ->
  exists c rest, str_int n = String c rest /\ is_digit c = true /\ all_digits rest = true.
Proof.
  intros Hn. unfold str_int.
  destruct n as [ | p | p]; [ | | lia].
  - exists "0"%char, EmptyString. repeat split.
  - cbn [Z.to_int NilZero.string_of_int].
    pose proof (uint_all_digits (Pos.to_uint p)) as Hall.
    unfold NilZero.string_of_uint.
    destruct (Pos.to_uint p);
      cbn in Hall |- *; eexists _, _;
      (split; [reflexivity | split; [reflexivity | exact Hall]]).
Qed.

Lemma digits_then_point (int : string) (a b : ascii) (seen : bool) :
  all_digits int = true -> is_digit a = true -> is_digit b = true ->
  digits_point_two seen (int ++ String "." (String a (String b "")))%string =
  match int with
  | EmptyString => seen
  | _ => true
  end.
Proof.
  intros Hint Ha Hb. revert seen.
  induction int as [ | c int IH]; intros seen.
  - cbn. rewrite Ha, Hb. destruct seen; reflexivity.
  - cbn [all_digits] in Hint. apply andb_prop in Hint. destruct Hint as [Hc Hint].
    cbn [append digits_point_two]. rewrite Hc, (IH Hint).
    destruct int; reflexivity.
Qed.

Lemma digit_not_minus (c : ascii) : is_digit c = true -> Ascii.eqb c "-" = false.
Proof.
  destruct (Ascii.eqb_spec c "-") as [-> | ]; [discriminate | reflexivity].
Qed.

Lemma fixed2_two_decimals (n : Z) :
  0 <= n ->
  digits_point_two false (fixed2 n) = true /\ is_two_decimals (fixed2 n) = true.
Proof.
  intros Hn. unfold fixed2.
  assert (Hint : 0 <= n / 100) by (apply Z.div_pos; lia).
  destruct (str_int_digits (n / 100) Hint) as (c & rest & Hs & Hc & Hrest).
  assert (H1 : is_digit (digit (n mod 100 / 10)) = true).
  { apply digit_is_digit.
    pose proof (Z.mod_pos_bound n 100 ltac:(lia)).
    split; [apply Z.div_pos; lia | ].
    apply Z.lt_succ_r. apply Z.div_lt_upper_bound; lia. }
  assert (H2 : is_digit (digit (n mod 10)) = true).
  { apply digit_is_digit. pose proof (Z.mod_pos_bound n 10 ltac:(lia)). lia. }
  assert (Hbody : digits_point_two false
            (str_int (n / 100) ++
             String "." (String (digit (n mod 100 / 10)) (String (digit (n mod 10)) "")))%string
          = true).
  { rewrite digits_then_point; auto.
    - rewrite Hs. reflexivity.
    - rewrite Hs. cbn [all_digits]. rewrite Hc, Hrest. reflexivity. }
  split; [exact Hbody | ].
  unfold is_two_decimals. rewrite Hs in Hbody |- *. cbn [append] in Hbody |- *.
  rewrite (digit_not_minus c Hc). exact Hbody.
Qed.

(** Every finite float is rendered with exactly two decimal places. *)
Lemma format_2f_two_decimals (x : float) :
  finite_float x = true -> is_two_decimals (format_2f x) = true.
Proof.
  unfold finite_float, format_2f.
  destruct (Prim2SF x) as [s | s | | s m e]; try discriminate; intros _.
  - destruct s; reflexivity.
  - destruct (fixed2_two_decimals (hundredths m e) (hundredths_nonneg m e)) as [Hb Ht].
    destruct s; [ | exact Ht].
    cbn [append]. unfold is_two_decimals. exact Hb.
Qed.

(** The hundredths are the nearest integer to a hundred times the value
    [m * 2^e] of the float. *)
Lemma hundredths_nearest (m : positive) (e : Z) :
  (0 <= e -> hundredths m e = Zpos m * 2 ^ e * 100) /\
  (e < 0 ->
   - 2 ^ (- e) <= 2 * (Zpos m * 100 - 2 ^ (- e) * hundredths m e) <= 2 ^ (- e)).
Proof.
  unfold hundredths. split; intros He.
  - destruct (Z.leb_spec 0 e); [reflexivity | lia].
  - destruct (Z.leb_spec 0 e); [lia | ].
    apply round_half_even_nearest. apply Z.pow_pos_nonneg; lia.
Qed.

(** C8. A pass of the gamepad loop that got a frame appends one line of
    the shape "<timestamp> - (<lx>, <ly>) - (<rx>, <ry>) - <action> -
    <count>" and a newline, the four stick components being axes 0, 1, 4
    and 5 under [.2f], which renders every finite float with exactly two
    decimal places; sticks at (0.123, -0.456) and (0.0, 1.0) with button
    A held and a count of 3 give
    "... - (0.12, -0.46) - (0.00, 1.00) - A - 3". *)
Theorem gamepad_log_record (t : Xbox.tick) (faces : list Blink.face) (w : world) :
  Xbox.frame t = Some faces ->
  let w' := exec (Xbox.iteration t) w in
  log_file w' =
    log_file w ++
    [ (Xbox.timestamp t ++ " - (" ++
       format_2f (Xbox.get_axis t 0) ++ ", " ++ format_2f (Xbox.get_axis t 1) ++
       ") - (" ++
       format_2f (Xbox.get_axis t 4) ++ ", " ++ format_2f (Xbox.get_axis t 5) ++
       ") - " ++ Xbox.sample_action (Xbox.get_button t) ++ " - " ++
       str_int (blink_count w') ++ String "010" "")%string ] /\
  (forall k, finite_float (Xbox.get_axis t k) = true ->
             is_two_decimals (format_2f (Xbox.get_axis t k)) = true) /\
  log_file (exec (Xbox.iteration example_pad_tick) example_pad_world) =
    [ ("2025-01-01 12:00:00 - (0.12, -0.46) - (0.00, 1.00) - A - 3"
       ++ String "010" "")%string ].
Proof.
  intros Hframe. cbv zeta. unfold exec. rewrite !xbox_iteration_eq, Hframe.
  cbv zeta. cbn [snd append_log log_file blink_count].
  split; [ | split].
  - destruct (process_faces_frame Xbox.EAR_THRESHOLD Xbox.SMOOTHING_WINDOW
                Xbox.MIN_CLOSE_DURATION faces (read_frame w)) as [Hlog _].
    rewrite Hlog. reflexivity.
  - intros k Hk. apply format_2f_two_decimals. exact Hk.
  - reflexivity.
Qed.

End Formatting.

(** ** Degenerate outlines *)

Section Degenerate.
Import Py Blink.
Local Open Scope R_scope.

Lemma degenerate_ratio :
  ratio (0, 0)%Z (1, 2)%Z (2, 2)%Z (0, 0)%Z (2, -2)%Z (1, -2)%Z = PInf.
Proof.
  rewrite ratio_degenerate by reflexivity.
  unfold Reqb.
  destruct (Req_dec_T (euclidean (1, 2)%Z (1, -2)%Z + euclidean (2, 2)%Z (2, -2)%Z) 0)
    as [E | E]; [ | reflexivity].
  apply heights_zero_iff in E. destruct E as [E _]. discriminate E.
Qed.

Lemma degenerate_avg_ear : avg_ear degenerate_face = PInf.
Proof.
  change (avg_ear degenerate_face) with
    (fdiv (fadd (ratio (0, 0)%Z (1, 2)%Z (2, 2)%Z (0, 0)%Z (2, -2)%Z (1, -2)%Z)
                (ratio (0, 0)%Z (1, 2)%Z (2, 2)%Z (0, 0)%Z (2, -2)%Z (1, -2)%Z))
          (Fin 2)).
  rewrite degenerate_ratio. cbn [fadd fdiv]. unfold Rltb.
  destruct (Rlt_dec 2 0); [lra | reflexivity].
Qed.

(** C2, as stated, fails: on an outline whose corners [p0] and [p3]
    coincide [calculate_ear] returns [inf] instead of detecting anything,
    and the face's sample is not skipped: it is in the buffer after the
    face has been processed. *)
Lemma degenerate_eye_not_skipped :
  nth 0 degenerate_eye (1, 1)%Z = nth 3 degenerate_eye (1, 1)%Z /\
  calculate_ear degenerate_eye = inl PInf /\
  ear_buffer (initial_world []) = [] /\
  ear_buffer
    (exec (process_face Main.EAR_THRESHOLD Main.SMOOTHING_WINDOW
             Main.MIN_CLOSE_DURATION degenerate_face) (initial_world [])) = [PInf] /\
  fst (process_face Main.EAR_THRESHOLD Main.SMOOTHING_WINDOW
         Main.MIN_CLOSE_DURATION degenerate_face (initial_world [])) = inl tt.
Proof.
  split; [reflexivity | split; [ | split; [reflexivity | split]]].
  - unfold degenerate_eye. rewrite calculate_ear_six.
    fold (ratio (0, 0)%Z (1, 2)%Z (2, 2)%Z (0, 0)%Z (2, -2)%Z (1, -2)%Z).
    rewrite degenerate_ratio. reflexivity.
  - rewrite process_face_buffer, degenerate_avg_ear. reflexivity.
  - apply process_face_returns, main_window_positive.
Qed.

(** C2, amended. On every six-point outline [calculate_ear] raises
    nothing.  With [p0 <> p3] (that is, [dist(p0, p3) <> 0]) the ratio is
    finite and non-negative.  With [p0 = p3] nothing is detected: the
    unguarded division yields [nan] when both heights vanish too and
    [inf] otherwise.  In either case the face's sample is appended to the
    buffer. *)
Theorem calculate_ear_unguarded (p0 p1 p2 p3 p4 p5 : point) :
  let eye := [p0; p1; p2; p3; p4; p5] in
  (euclidean p0 p3 = 0 <-> p0 = p3) /\
  (p0 <> p3 -> exists r, calculate_ear eye = inl (Fin r) /\ 0 <= r) /\
  (p0 = p3 ->
     (p1 = p5 /\ p2 = p4 -> calculate_ear eye = inl NaN) /\
     (~ (p1 = p5 /\ p2 = p4) -> calculate_ear eye = inl PInf)) /\
  (forall (EAR_THRESHOLD : R) (SMOOTHING_WINDOW : nat) (MIN_CLOSE_DURATION : R)
          (f : face) (w : world),
     ear_buffer (exec (process_face EAR_THRESHOLD SMOOTHING_WINDOW
                         MIN_CLOSE_DURATION f) w) =
     deque_append SMOOTHING_WINDOW (ear_buffer w) (avg_ear f)).
Proof.
  cbv zeta. rewrite calculate_ear_six. fold (ratio p0 p1 p2 p3 p4 p5).
  split; [apply euclidean_zero_iff | split; [ | split]].
  - intros Hne. destruct (ratio_regular p0 p1 p2 p3 p4 p5 Hne) as (r & Hr & Hpos).
    exists r. rewrite Hr. auto.
  - intros Heq. rewrite (ratio_degenerate p0 p1 p2 p3 p4 p5 Heq). unfold Reqb.
    destruct (Req_dec_T (euclidean p1 p5 + euclidean p2 p4) 0) as [E | E];
      rewrite heights_zero_iff in E; split; intros H; try reflexivity; contradiction.
  - intros. apply process_face_buffer.
Qed.

End Degenerate.

(** ** The theorems at concrete inputs *)

Section Instances.
Import Py Blink.
Local Open Scope R_scope.

Lemma fltb_fin (a b : R) : a < b -> fltb (Fin a) (Fin b) = true.
Proof. intros H. cbn [fltb]. unfold Rltb. destruct (Rlt_dec a b); [reflexivity | lra]. Qed.

Lemma update_blink_opens (T D : R) (s : pyfloat) (now : R) (w : world) :
  blink_state w = CLOSED -> fgtb s (Fin T) = true ->
  blink_state (update_blink T D s now w) = OPEN.
Proof.
  unfold update_blink, CLOSED. intros -> ->. cbn [Z.eqb andb].
  rewrite andb_false_r. reflexivity.
Qed.

(** A regular outline, six wide and two high. *)
Lemma calculate_ear_unguarded_witness :
  (0, 0)%Z <> (6, 0)%Z /\
  exists r,
    calculate_ear [(0, 0); (1, 1); (4, 1); (6, 0); (4, -1); (1, -1)]%Z = inl (Fin r) /\
    0 <= r.
Proof.
  split; [discriminate | ].
  apply (calculate_ear_unguarded (0, 0)%Z (1, 1)%Z (4, 1)%Z (6, 0)%Z (4, -1)%Z (1, -1)%Z).
  discriminate.
Defined.

(** A detector closed at 0.10 s that opens at 0.25 s counts the blink. *)
Lemma closed_to_open_count_witness :
  blink_state (closed_world 0.10 0) = CLOSED /\
  close_start_time (closed_world 0.10 0) = Some 0.10 /\
  blink_count (update_blink 0.25 0.10 (Fin 0.32) 0.25 (closed_world 0.10 0)) = 1%Z.
Proof.
  split; [reflexivity | split; [reflexivity | ]].
  assert (Hopen : blink_state (update_blink 0.25 0.10 (Fin 0.32) 0.25 (closed_world 0.10 0))
                  = OPEN)
    by (apply update_blink_opens; [reflexivity | apply fltb_fin; lra]).
  apply (proj1 (closed_to_open_count 0.25 0.10 (Fin 0.32) 0.25 0.10 (closed_world 0.10 0)
                  eq_refl Hopen eq_refl)).
  lra.
Defined.

(** A fresh detector closes on a smoothed ratio of 0.18. *)
Lemma blink_transitions_witness :
  blink_state (initial_world []) = OPEN /\
  blink_state (update_blink 0.25 0.10 (Fin 0.18) 7 (initial_world [])) = CLOSED.
Proof.
  split; [reflexivity | ].
  apply (blink_transitions 0.25 0.10 (Fin 0.18) 7 (initial_world [])).
  - reflexivity.
  - apply fltb_fin. lra.
Defined.

(** The left stick's vertical axis of the example, -0.456, is rendered
    with two decimal places. *)
Lemma gamepad_log_record_witness :
  Xbox.frame example_pad_tick = Some [] /\
  is_two_decimals (format_2f (Xbox.get_axis example_pad_tick 1)) = true.
Proof.
  split; [reflexivity | ].
  apply (gamepad_log_record example_pad_tick [] example_pad_world).
  - reflexivity.
  - reflexivity.
Defined.

(** With one joystick the example pass reads a frame. *)
Lemma no_gamepad_no_loop_witness :
  1%Z <> 0%Z /\
  frames_read (exec (Xbox.track_actions 1 [example_pad_tick]) example_pad_world) = 1%nat.
Proof.
  split; [discriminate | ].
  apply (no_gamepad_no_loop [] example_pad_world).
  discriminate.
Defined.

(** One pass over a frame with one face, from a count of 2. *)
Lemma blink_count_step_bound_witness :
  (faces_in (Main.frame (example_main_tick [degenerate_face])) <= 1)%nat /\
  (blink_count (exec (Main.iteration (example_main_tick [degenerate_face]))
                  (closed_world 0.10 2)) <= 2 + 1)%Z.
Proof.
  split; [cbn; lia | ].
  apply (blink_count_step_bound).
  cbn. lia.
Defined.

End Instances.

(** ** The end-to-end scenario *)

Section Scenario.
Import Py Blink.
Local Open Scope R_scope.

Lemma euclidean_vertical (x y1 y2 : Z) :
  euclidean (x, y1) (x, y2) = Rabs (IZR (y1 - y2)).
Proof.
  unfold euclidean. cbn [fst snd].
  rewrite Z.sub_diag, Z.mul_0_l, Z.add_0_l, mult_IZR.
  apply sqrt_Rsqr_abs.
Qed.

Lemma euclidean_horizontal (x1 x2 y : Z) :
  euclidean (x1, y) (x2, y) = Rabs (IZR (x1 - x2)).
Proof.
  unfold euclidean. cbn [fst snd].
  rewrite Z.sub_diag, Z.mul_0_l, Z.add_0_r, mult_IZR.
  apply sqrt_Rsqr_abs.
Qed.

Lemma ratio_of_height (h : Z) :
  (0 <= h)%Z ->
  ratio (0, 0)%Z (30, h)%Z (60, h)%Z (100, 0)%Z (60, 0)%Z (30, 0)%Z = Fin (IZR h / 100).
Proof.
  intros Hh. unfold ratio.
  rewrite !euclidean_vertical, euclidean_horizontal.
  replace (h - 0)%Z with h by lia. replace (0 - 100)%Z with (-100)%Z by lia.
  rewrite (Rabs_pos_eq (IZR h)) by (apply IZR_le; assumption).
  rewrite (Rabs_left (IZR (-100))) by (apply IZR_lt; lia).
  replace (2 * - IZR (-100)) with 200 by lra.
  rewrite fdiv_fin_nonzero by lra.
  f_equal. lra.
Qed.

Lemma avg_ear_of_height (h : Z) (now : R) :
  (0 <= h)%Z -> avg_ear (face_of_height h now) = Fin (IZR h / 100).
Proof.
  intros Hh.
  change (avg_ear (face_of_height h now)) with
    (fdiv (fadd (ratio (0, 0)%Z (30, h)%Z (60, h)%Z (100, 0)%Z (60, 0)%Z (30, 0)%Z)
                (ratio (0, 0)%Z (30, h)%Z (60, h)%Z (100, 0)%Z (60, 0)%Z (30, 0)%Z))
          (Fin 2)).
  rewrite (ratio_of_height h Hh). cbn [fadd].
  rewrite fdiv_fin_nonzero by lra. f_equal. lra.
Qed.

(** With a window of one sample the smoothed ratio is the sample. *)
Lemma process_face_window_one (T D : R) (f : face) (w : world) (x : R) :
  avg_ear f = Fin x ->
  (length (ear_buffer w) <= 1)%nat ->
  process_face T 1 D f w =
  (inl tt, update_blink T D (Fin x) (clock f) (set_buffer w [Fin x])).
Proof.
  intros Havg Hlen. rewrite process_face_eq, Havg. cbv zeta.
  assert (Hbuf : deque_append 1 (ear_buffer w) (Fin x) = [Fin x]).
  { unfold deque_append. destruct (ear_buffer w) as [ | y [ | z rest]];
      [reflexivity | reflexivity | cbn [length] in Hlen; lia]. }
  rewrite Hbuf. cbn [set_buffer ear_buffer].
  pose proof (sum_div_len_finite [x] ltac:(discriminate)) as Hmean.
  cbn [map] in Hmean. rewrite Hmean.
  replace (arithmetic_mean [x]) with x by (unfold arithmetic_mean; cbn; lra).
  reflexivity.
Qed.

(** One face of the scenario, as a step of [process_faces]. *)
Lemma scenario_cons (T D : R) (h : Z) (now : R) (fs : list face) (w : world) :
  (0 <= h)%Z ->
  (length (ear_buffer w) <= 1)%nat ->
  exec (process_faces T 1 D (face_of_height h now :: fs)) w =
  exec (process_faces T 1 D fs)
       (update_blink T D (Fin (IZR h / 100)) now (set_buffer w [Fin (IZR h / 100)])).
Proof.
  intros Hh Hlen. rewrite process_faces_cons. unfold exec at 2.
  rewrite (process_face_window_one T D (face_of_height h now) w (IZR h / 100))
    by (try apply avg_ear_of_height; assumption).
  reflexivity.
Qed.

Ltac decide_reals :=
  repeat match goal with
         | |- context [Rlt_dec ?a ?b] => destruct (Rlt_dec a b); try lra
         | |- context [Rle_dec ?a ?b] => destruct (Rle_dec a b); try lra
         end.

Ltac scenario_step :=
  rewrite scenario_cons by (cbn; lia);
  unfold update_blink, fgtb;
  cbn [fltb blink_state close_start_time blink_count ear_buffer set_buffer
       log_file console frames_read];
  unfold Rltb, Rleb;
  decide_reals;
  cbn [andb Z.eqb blink_state close_start_time blink_count ear_buffer
       set_buffer log_file console frames_read].

(** The scenario of the specification: with [EAR_THRESHOLD = 0.25],
    [MIN_CLOSE_DURATION = 0.10] and a window of one sample, the detector
    closes at the third sample and opens at the sixth, 0.15 s later, and
    the count becomes 1; with [MIN_CLOSE_DURATION = 0.20] it stays 0. *)
Lemma scenario_counts_one :
  blink_count (exec (process_faces 0.25 1 0.10 scenario_faces) (initial_world [])) = 1%Z.
Proof.
  unfold scenario_faces, initial_world.
  do 6 scenario_step.
  reflexivity.
Qed.

Lemma scenario_longer_gate_counts_none :
  blink_count (exec (process_faces 0.25 1 0.20 scenario_faces) (initial_world [])) = 0%Z.
Proof.
  unfold scenario_faces, initial_world.
  do 6 scenario_step.
  reflexivity.
Qed.

End Scenario.

(* ===================================================================== *)
(** * Further properties of the code *)
(* ===================================================================== *)

(** ** The quit key and the end of a run *)

Section Stopping.
Import Py.
Local Open Scope Z_scope.

(** X1. The quit test looks at the low byte of what [cv2.waitKey]
    returns and at nothing else: the loop breaks exactly when that byte
    is 113, the code of "q"; so -1 (no key) and 81 ("Q") do not quit. *)
Theorem quit_pressed_low_byte (k : Z) :
  (quit_pressed k = true <-> k mod 256 = 113) /\
  quit_pressed (-1) = false /\
  quit_pressed 81 = false /\
  quit_pressed (k + 256) = quit_pressed k.
Proof.
  assert (Hland : forall a, Z.land a 255 = a mod 256).
  { intros a. change 255 with (Z.ones 8). rewrite Z.land_ones by lia. reflexivity. }
  unfold quit_pressed. rewrite !Hland. repeat split.
  - apply Z.eqb_eq.
  - apply Z.eqb_eq.
  - replace (k + 256) with (k + 1 * 256) by lia. rewrite Z.mod_add by lia. reflexivity.
Qed.


Lemma while_true_returns {T : Type} (body : T -> M bool) (ticks : list T) (w : world) :
  (forall t w0, exists b, fst (body t w0) = inl b) ->
  fst (while_true body ticks w) = inl tt.
Proof.
  intros Hbody. revert w. induction ticks as [ | t rest IH]; intros w.
  - reflexivity.
  - cbn [while_true]. rewrite fst_bind.
    destruct (Hbody t w) as [b Hb]. rewrite Hb.
    destruct b; [apply IH | reflexivity].
Qed.

Lemma main_iteration_result (t : Main.tick) (w : world) :
  fst (Main.iteration t w) =
  inl (match Main.frame t with
       | None => false
       | Some _ => negb (quit_pressed (Main.wait_key t))
       end).
Proof. rewrite main_iteration_eq. destruct (Main.frame t); reflexivity. Qed.

Lemma xbox_iteration_result (t : Xbox.tick) (w : world) :
  fst (Xbox.iteration t w) =
  inl (match Xbox.frame t with
       | None => false
       | Some _ => negb (quit_pressed (Xbox.wait_key t))
       end).
Proof. rewrite xbox_iteration_eq. destruct (Xbox.frame t); reflexivity. Qed.

(** X3. No pass and no run of either variant ever raises: with six
    landmarks per eye no index is out of range, and with a window of five
    samples the buffer is never empty when its mean is taken. *)
Theorem runs_never_raise (w : world) :
  (forall t : Main.tick, exists go_on, fst (Main.iteration t w) = inl go_on) /\
  (forall ticks : list Main.tick, fst (Main.track_actions ticks w) = inl tt) /\
  (forall t : Xbox.tick, exists go_on, fst (Xbox.iteration t w) = inl go_on) /\
  (forall (joysticks : Z) (ticks : list Xbox.tick),
     fst (Xbox.track_actions joysticks ticks w) = inl tt).
Proof.
  split; [ | split; [ | split]].
  - intros t. eexists. apply main_iteration_result.
  - intros ticks. unfold Main.track_actions. apply while_true_returns.
    intros t w0. eexists. apply main_iteration_result.
  - intros t. eexists. apply xbox_iteration_result.
  - intros joysticks ticks. unfold Xbox.track_actions.
    destruct (joysticks =? 0); [reflexivity | ].
    apply while_true_returns. intros t w0. eexists. apply xbox_iteration_result.
Qed.

End Stopping.

(** ** More on the detector and its buffer *)

Section DetectorMore.
Import Py Blink.
Local Open Scope R_scope.

Lemma fltb_asym (x y : pyfloat) : fltb x y = true -> fltb y x = false.
Proof.
  destruct x as [a | | | ], y as [b | | | ]; cbn [fltb]; try reflexivity; try discriminate.
  unfold Rltb. destruct (Rlt_dec a b); [ | discriminate].
  destruct (Rlt_dec b a); [lra | reflexivity].
Qed.

(** X4. The detector needs a crossing to move: after an update with a
    smoothed ratio [s], a further update with the same [s], whatever the
    clock then reads, changes nothing; a reading that repeats never
    produces a second transition or a second count. *)
Theorem update_blink_settles (EAR_THRESHOLD MIN_CLOSE_DURATION : R)
    (s : pyfloat) (now later : R) (w : world) :
  update_blink EAR_THRESHOLD MIN_CLOSE_DURATION s later
    (update_blink EAR_THRESHOLD MIN_CLOSE_DURATION s now w) =
  update_blink EAR_THRESHOLD MIN_CLOSE_DURATION s now w.
Proof.
  unfold update_blink at 2 3.
  destruct (fltb s (Fin EAR_THRESHOLD)) eqn:Hlt.
  - pose proof (fltb_asym _ _ Hlt) as Hgt.
    destruct (Z.eqb_spec (blink_state w) 0) as [E0 | E0]; cbn [andb].
    + unfold update_blink, fgtb. rewrite Hlt, Hgt. reflexivity.
    + unfold fgtb at 1 2. rewrite Hgt. cbn [andb].
      unfold update_blink, fgtb. rewrite Hlt, Hgt.
      destruct (Z.eqb_spec (blink_state w) 0); [contradiction | reflexivity].
  - cbn [andb].
    destruct (fgtb s (Fin EAR_THRESHOLD)) eqn:Hgt;
      destruct (Z.eqb_spec (blink_state w) 1) as [E1 | E1]; cbn [andb].
    + unfold update_blink. rewrite Hlt, Hgt. reflexivity.
    + unfold update_blink. rewrite Hlt, Hgt. cbn [andb].
      destruct (Z.eqb_spec (blink_state w) 1); [contradiction | reflexivity].
    + unfold update_blink. rewrite Hlt, Hgt. reflexivity.
    + unfold update_blink. rewrite Hlt, Hgt. reflexivity.
Qed.

Lemma update_blink_potential (T D : R) (s : pyfloat) (now : R) (w : world) :
  (2 * blink_count (update_blink T D s now w) + closed_bit (update_blink T D s now w)
   <= 2 * blink_count w + closed_bit w + 1)%Z.
Proof.
  unfold update_blink, closed_bit.
  destruct (fltb s (Fin T)); destruct (fgtb s (Fin T));
    destruct (Z.eqb_spec (blink_state w) 0) as [E0 | E0];
    destruct (Z.eqb_spec (blink_state w) 1) as [E1 | E1];
    cbn [andb blink_state blink_count Z.eqb Pos.eqb];
    repeat (match goal with
            | |- context [match close_start_time ?v with _ => _ end] =>
                destruct (close_start_time v)
            | |- context [Rleb ?a ?b] => destruct (Rleb a b)
            | |- context [(blink_state ?v =? 1)%Z] =>
                destruct (Z.eqb_spec (blink_state v) 1)
            end; cbn [blink_state blink_count Z.eqb Pos.eqb]);
    lia.
Qed.

Lemma process_face_potential (T : R) (W : nat) (D : R) (f : face) (w : world) :
  (2 * blink_count (exec (process_face T W D f) w)
   + closed_bit (exec (process_face T W D f) w)
   <= 2 * blink_count w + closed_bit w + 1)%Z.
Proof.
  unfold exec. rewrite process_face_eq. cbv zeta.
  destruct (sum_div_len _) as [sm | e]; cbn [snd].
  - apply (update_blink_potential T D sm (clock f)
             (set_buffer w (deque_append W (ear_buffer w) (avg_ear f)))).
  - unfold closed_bit. cbn [set_buffer blink_state blink_count]. lia.
Qed.

Lemma process_faces_potential (T : R) (W : nat) (D : R) (faces : list face) (w : world) :
  (2 * blink_count (exec (process_faces T W D faces) w)
   + closed_bit (exec (process_faces T W D faces) w)
   <= 2 * blink_count w + closed_bit w + Z.of_nat (length faces))%Z.
Proof.
  revert w. induction faces as [ | f faces IH]; intros w.
  - cbn. lia.
  - rewrite process_faces_cons. cbn [length].
    pose proof (process_face_potential T W D f w) as Hone.
    destruct (fst (process_face T W D f w)).
    + specialize (IH (exec (process_face T W D f) w)). lia.
    + lia.
Qed.

Lemma closed_bit_range (w : world) : (0 <= closed_bit w <= 1)%Z.
Proof. unfold closed_bit. destruct (blink_state w =? 1)%Z; lia. Qed.

Lemma main_iteration_potential (t : Main.tick) (w : world) :
  (2 * blink_count (exec (Main.iteration t) w) + closed_bit (exec (Main.iteration t) w)
   <= 2 * blink_count w + closed_bit w + Z.of_nat (faces_in (Main.frame t)))%Z.
Proof.
  unfold exec. rewrite main_iteration_eq.
  destruct (Main.frame t) as [faces | ]; cbv zeta; cbn [snd faces_in].
  - apply (process_faces_potential Main.EAR_THRESHOLD Main.SMOOTHING_WINDOW
             Main.MIN_CLOSE_DURATION faces (read_frame w)).
  - change (closed_bit (read_frame w)) with (closed_bit w).
    cbn [read_frame blink_count]. lia.
Qed.

Lemma xbox_iteration_potential (t : Xbox.tick) (w : world) :
  (2 * blink_count (exec (Xbox.iteration t) w) + closed_bit (exec (Xbox.iteration t) w)
   <= 2 * blink_count w + closed_bit w + Z.of_nat (faces_in (Xbox.frame t)))%Z.
Proof.
  unfold exec. rewrite xbox_iteration_eq.
  destruct (Xbox.frame t) as [faces | ]; cbv zeta; cbn [snd faces_in].
  - apply (process_faces_potential Xbox.EAR_THRESHOLD Xbox.SMOOTHING_WINDOW
             Xbox.MIN_CLOSE_DURATION faces (read_frame w)).
  - change (closed_bit (read_frame w)) with (closed_bit w).
    cbn [read_frame blink_count]. lia.
Qed.

Lemma main_loop_potential (ticks : list Main.tick) (w : world) :
  (2 * blink_count (exec (while_true Main.iteration ticks) w)
   + closed_bit (exec (while_true Main.iteration ticks) w)
   <= 2 * blink_count w + closed_bit w + Z.of_nat (main_faces_seen ticks))%Z.
Proof.
  revert w. induction ticks as [ | t rest IH]; intros w.
  - cbn. lia.
  - rewrite while_true_cons. cbn [main_faces_seen fold_right].
    fold (main_faces_seen rest).
    pose proof (main_iteration_potential t w) as Hone.
    destruct (fst (Main.iteration t w)) as [[ | ] | e]; try lia.
    specialize (IH (exec (Main.iteration t) w)). lia.
Qed.

Lemma xbox_loop_potential (ticks : list Xbox.tick) (w : world) :
  (2 * blink_count (exec (while_true Xbox.iteration ticks) w)
   + closed_bit (exec (while_true Xbox.iteration ticks) w)
   <= 2 * blink_count w + closed_bit w + Z.of_nat (xbox_faces_seen ticks))%Z.
Proof.
  revert w. induction ticks as [ | t rest IH]; intros w.
  - cbn. lia.
  - rewrite while_true_cons. cbn [xbox_faces_seen fold_right].
    fold (xbox_faces_seen rest).
    pose proof (xbox_iteration_potential t w) as Hone.
    destruct (fst (Xbox.iteration t w)) as [[ | ] | e]; try lia.
    specialize (IH (exec (Xbox.iteration t) w)). lia.
Qed.

(** X5. A blink takes two faces: over the faces of a frame, for any
    threshold, window and gate, twice the growth of the count is at most
    the number of faces, plus one if the detector was closed to begin
    with; and so it is over a whole run of either loop, with the faces of
    all its frames. *)
Theorem one_blink_per_two_faces (w : world) :
  (forall (EAR_THRESHOLD : R) (SMOOTHING_WINDOW : nat) (MIN_CLOSE_DURATION : R)
          (faces : list face),
     (2 * (blink_count (exec (process_faces EAR_THRESHOLD SMOOTHING_WINDOW
                                MIN_CLOSE_DURATION faces) w) - blink_count w)
      <= Z.of_nat (length faces) + closed_bit w)%Z) /\
  (forall ticks : list Main.tick,
     (2 * (blink_count (exec (Main.track_actions ticks) w) - blink_count w)
      <= Z.of_nat (main_faces_seen ticks) + closed_bit w)%Z) /\
  (forall (joysticks : Z) (ticks : list Xbox.tick),
     (2 * (blink_count (exec (Xbox.track_actions joysticks ticks) w) - blink_count w)
      <= Z.of_nat (xbox_faces_seen ticks) + closed_bit w)%Z).
Proof.
  split; [ | split].
  - intros T W D faces.
    pose proof (process_faces_potential T W D faces w).
    pose proof (closed_bit_range (exec (process_faces T W D faces) w)). lia.
  - intros ticks. unfold Main.track_actions.
    pose proof (main_loop_potential ticks w).
    pose proof (closed_bit_range (exec (while_true Main.iteration ticks) w)). lia.
  - intros joysticks ticks. unfold Xbox.track_actions.
    destruct (joysticks =? 0)%Z.
    + cbn [exec print modify snd append_console blink_count].
      pose proof (closed_bit_range w). lia.
    + pose proof (xbox_loop_potential ticks w).
      pose proof (closed_bit_range (exec (while_true Xbox.iteration ticks) w)). lia.
Qed.

Lemma feed_length {A : Type} (W : nat) (buffer samples : list A) :
  (length buffer <= W)%nat ->
  length (feed W buffer samples) = Nat.min W (length buffer + length samples).
Proof.
  intros Hlen. destruct W as [ | n].
  - unfold feed. rewrite feed_empty_window.
    destruct buffer; [reflexivity | cbn [length] in Hlen; lia].
  - rewrite feed_last_n by lia. unfold last_n.
    rewrite length_skipn, length_app. lia.
Qed.

Lemma process_faces_buffer_length (T : R) (W : nat) (D : R) (faces : list face)
    (w : world) :
  (length (ear_buffer w) <= W)%nat ->
  length (ear_buffer (exec (process_faces T W D faces) w)) =
  Nat.min W (length (ear_buffer w) + length faces).
Proof.
  intros Hlen. rewrite process_faces_buffer.
  fold (feed W (ear_buffer w) (map avg_ear faces)).
  rewrite feed_length by exact Hlen. rewrite length_map. reflexivity.
Qed.

Lemma main_iteration_buffer (t : Main.tick) (w : world) :
  (length (ear_buffer w) <= 5)%nat ->
  (length (ear_buffer (exec (Main.iteration t) w)) <= 5)%nat.
Proof.
  intros Hlen. unfold exec. rewrite main_iteration_eq.
  destruct (Main.frame t) as [faces | ]; cbv zeta; cbn [snd append_log ear_buffer].
  - rewrite (process_faces_buffer_length Main.EAR_THRESHOLD Main.SMOOTHING_WINDOW
               Main.MIN_CLOSE_DURATION faces (read_frame w)) by exact Hlen.
    unfold Main.SMOOTHING_WINDOW. lia.
  - exact Hlen.
Qed.

Lemma xbox_iteration_buffer (t : Xbox.tick) (w : world) :
  (length (ear_buffer w) <= 5)%nat ->
  (length (ear_buffer (exec (Xbox.iteration t) w)) <= 5)%nat.
Proof.
  intros Hlen. unfold exec. rewrite xbox_iteration_eq.
  destruct (Xbox.frame t) as [faces | ]; cbv zeta; cbn [snd append_log ear_buffer].
  - rewrite (process_faces_buffer_length Xbox.EAR_THRESHOLD Xbox.SMOOTHING_WINDOW
               Xbox.MIN_CLOSE_DURATION faces (read_frame w)) by exact Hlen.
    unfold Xbox.SMOOTHING_WINDOW. lia.
  - exact Hlen.
Qed.

(** X6. The buffer never outgrows its window.  Over the faces of a
    frame, a buffer within the window [W] ends with
    [min W (samples before + faces)] samples; and along any run of either
    variant, from the start, it holds at most 5. *)
Theorem buffer_within_window :
  (forall (EAR_THRESHOLD : R) (W : nat) (MIN_CLOSE_DURATION : R)
          (faces : list face) (w : world),
     (length (ear_buffer w) <= W)%nat ->
     length (ear_buffer (exec (process_faces EAR_THRESHOLD W MIN_CLOSE_DURATION faces) w)) =
     Nat.min W (length (ear_buffer w) + length faces)) /\
  (forall (ticks : list Main.tick) (old_log : list string),
     (length (ear_buffer (exec (Main.track_actions ticks) (initial_world old_log))) <= 5)%nat) /\
  (forall (joysticks : Z) (ticks : list Xbox.tick) (old_log : list string),
     (length (ear_buffer (exec (Xbox.track_actions joysticks ticks)
                            (initial_world old_log))) <= 5)%nat).
Proof.
  split; [ | split].
  - intros. apply process_faces_buffer_length. assumption.
  - intros ticks old_log. unfold Main.track_actions.
    apply (while_true_rel Main.tick Main.iteration
             (fun a b => (length (ear_buffer a) <= 5)%nat ->
                         (length (ear_buffer b) <= 5)%nat)).
    + auto.
    + auto.
    + intros t w. apply main_iteration_buffer.
    + cbn. lia.
  - intros joysticks ticks old_log. unfold Xbox.track_actions.
    destruct (joysticks =? 0)%Z; [cbn; lia | ].
    apply (while_true_rel Xbox.tick Xbox.iteration
             (fun a b => (length (ear_buffer a) <= 5)%nat ->
                         (length (ear_buffer b) <= 5)%nat)).
    + auto.
    + auto.
    + intros t w. apply xbox_iteration_buffer.
    + cbn. lia.
Qed.

(** X7. Along any run of either variant, from the start, the detector is
    in one of its two states, and [close_start_time] is set exactly while
    it is closed: open goes with [None], closed with a clock reading. *)
Theorem reachable_detector_invariant :
  (forall (ticks : list Main.tick) (old_log : list string),
     detector_ok (exec (Main.track_actions ticks) (initial_world old_log))) /\
  (forall (joysticks : Z) (ticks : list Xbox.tick) (old_log : list string),
     detector_ok (exec (Xbox.track_actions joysticks ticks) (initial_world old_log))).
Proof.
  split.
  - intros. apply main_run_ok.
  - intros. apply xbox_run_ok.
Qed.

(** X8. The window is what keeps the mean defined: on a buffer within
    the window, processing a face returns normally exactly when
    [SMOOTHING_WINDOW >= 1]; with a window of 0 the deque stays empty,
    [sum / len] raises ZeroDivisionError, and the detector is not
    updated. *)
Theorem empty_window_raises (EAR_THRESHOLD : R) (W : nat) (MIN_CLOSE_DURATION : R)
    (f : face) (w : world) :
  (length (ear_buffer w) <= W)%nat ->
  (fst (process_face EAR_THRESHOLD W MIN_CLOSE_DURATION f w) = inl tt <-> (0 < W)%nat) /\
  (W = 0%nat ->
   fst (process_face EAR_THRESHOLD W MIN_CLOSE_DURATION f w) = inr ZeroDivisionError /\
   detector_of (exec (process_face EAR_THRESHOLD W MIN_CLOSE_DURATION f) w) =
   detector_of w).
Proof.
  intros Hlen.
  assert (Hzero : W = 0%nat ->
            process_face EAR_THRESHOLD W MIN_CLOSE_DURATION f w =
            (inr ZeroDivisionError, set_buffer w [])).
  { intros ->. rewrite process_face_eq. cbv zeta.
    destruct (ear_buffer w) eqn:Hbuf; [ | cbn [length] in Hlen; lia].
    reflexivity. }
  split.
  - split.
    + intros Hret. destruct W; [ | lia]. rewrite Hzero in Hret by reflexivity.
      discriminate.
    + intros HW. apply process_face_returns. exact HW.
  - intros HW. unfold exec. rewrite (Hzero HW). split; [reflexivity | ].
    subst W. unfold detector_of. cbn [snd set_buffer blink_state close_start_time
                                       blink_count ear_buffer].
    destruct (ear_buffer w); [reflexivity | cbn [length] in Hlen; lia].
Qed.

End DetectorMore.

(** ** What the smoothed ratio does to the detector *)

Section SmoothedRatio.
Import Py Blink.
Local Open Scope R_scope.

(** The detector's three variables after a face, from the smoothed ratio
    of the buffer the face leaves. *)
Lemma process_face_blink (T : R) (W : nat) (D : R) (f : face) (w : world) :
  blink_of (exec (process_face T W D f) w) =
  match sum_div_len (deque_append W (ear_buffer w) (avg_ear f)) with
  | inl smoothed => blink_of (update_blink T D smoothed (clock f) w)
  | inr _ => blink_of w
  end.
Proof.
  unfold exec. rewrite process_face_eq. cbv zeta.
  cbn [set_buffer ear_buffer].
  destruct (sum_div_len _) as [sm | e]; [ | reflexivity].
  cbn [snd]. unfold blink_of, update_blink.
  cbn [set_buffer blink_state close_start_time blink_count].
  destruct (fltb sm (Fin T) && (blink_state w =? 0)%Z); [reflexivity | ].
  destruct (fgtb sm (Fin T) && (blink_state w =? 1)%Z); reflexivity.
Qed.

Lemma update_blink_holds (T D : R) (s : pyfloat) (now : R) (w : world) :
  fltb s (Fin T) && (blink_state w =? 0)%Z = false ->
  fgtb s (Fin T) && (blink_state w =? 1)%Z = false ->
  update_blink T D s now w = w.
Proof. unfold update_blink. intros -> ->. reflexivity. Qed.

Lemma py_sum_nan_acc (xs : list pyfloat) : fold_left fadd xs NaN = NaN.
Proof. induction xs as [ | x xs IH]; [reflexivity | exact IH]. Qed.

Lemma fadd_nan_r (x : pyfloat) : fadd x NaN = NaN.
Proof. destruct x; reflexivity. Qed.

Lemma py_sum_nan (xs : list pyfloat) (acc : pyfloat) :
  In NaN xs -> fold_left fadd xs acc = NaN.
Proof.
  revert acc. induction xs as [ | x xs IH]; intros acc Hin; [destruct Hin | ].
  cbn [fold_left]. destruct Hin as [-> | Hin].
  - rewrite fadd_nan_r. apply py_sum_nan_acc.
  - apply IH. exact Hin.
Qed.

(** X10. A [nan] sample blinds the detector for as long as it is in the
    window: whenever the buffer a face leaves holds a [nan] (the sample
    of a face whose eye outlines collapse to a point is one), the
    smoothed ratio is [nan], both comparisons fail, and the state, the
    start time and the count stay as they were, whatever the other
    samples are. *)
Theorem nan_sample_blinds_detector (EAR_THRESHOLD : R) (W : nat)
    (MIN_CLOSE_DURATION : R) (f : face) (w : world) :
  In NaN (deque_append W (ear_buffer w) (avg_ear f)) ->
  sum_div_len (deque_append W (ear_buffer w) (avg_ear f)) = inl NaN /\
  blink_of (exec (process_face EAR_THRESHOLD W MIN_CLOSE_DURATION f) w) = blink_of w.
Proof.
  intros Hin.
  assert (Hsm : sum_div_len (deque_append W (ear_buffer w) (avg_ear f)) = inl NaN).
  { unfold sum_div_len, py_sum.
    destruct (deque_append W (ear_buffer w) (avg_ear f)) as [ | x xs] eqn:Hbuf;
      [destruct Hin | ].
    rewrite (py_sum_nan (x :: xs) (Fin 0) Hin). reflexivity. }
  split; [exact Hsm | ].
  rewrite process_face_blink, Hsm, update_blink_holds; reflexivity.
Qed.

Lemma py_sum_inf_acc (xs : list pyfloat) :
  Forall finite_or_inf xs -> fold_left fadd xs PInf = PInf.
Proof.
  induction 1 as [ | x xs Hx _ IH]; [reflexivity | ].
  cbn [fold_left]. destruct x; try (exfalso; exact Hx); exact IH.
Qed.

Lemma py_sum_inf (xs : list pyfloat) (a : R) :
  Forall finite_or_inf xs -> In PInf xs -> fold_left fadd xs (Fin a) = PInf.
Proof.
  intros Hall. revert a. induction Hall as [ | x xs Hx Hall IH]; intros a Hin;
    [destruct Hin | ].
  cbn [fold_left]. destruct x as [r | | | ]; try (exfalso; exact Hx).
  - destruct Hin as [E | Hin]; [discriminate | ]. apply IH. exact Hin.
  - apply py_sum_inf_acc. exact Hall.
Qed.

(** X11. An [inf] sample reads as an open eye: whenever the buffer a
    face leaves holds [inf] (the sample of a face with a degenerate eye
    outline) among otherwise finite samples, the smoothed ratio is [inf],
    and a closed detector opens on that face, for any threshold. *)
Theorem inf_sample_opens_detector (EAR_THRESHOLD : R) (W : nat)
    (MIN_CLOSE_DURATION : R) (f : face) (w : world) :
  Forall finite_or_inf (deque_append W (ear_buffer w) (avg_ear f)) ->
  In PInf (deque_append W (ear_buffer w) (avg_ear f)) ->
  blink_state w = CLOSED ->
  sum_div_len (deque_append W (ear_buffer w) (avg_ear f)) = inl PInf /\
  blink_state (exec (process_face EAR_THRESHOLD W MIN_CLOSE_DURATION f) w) = OPEN /\
  close_start_time (exec (process_face EAR_THRESHOLD W MIN_CLOSE_DURATION f) w) = None.
Proof.
  intros Hall Hin Hclosed.
  assert (Hsm : sum_div_len (deque_append W (ear_buffer w) (avg_ear f)) = inl PInf).
  { unfold sum_div_len, py_sum.
    destruct (deque_append W (ear_buffer w) (avg_ear f)) as [ | x xs] eqn:Hbuf;
      [destruct Hin | ].
    rewrite (py_sum_inf (x :: xs) 0 Hall Hin). cbn [fdiv]. unfold Rltb.
    destruct (Rlt_dec (INR (length (x :: xs))) 0) as [Hneg | _]; [ | reflexivity].
    pose proof (pos_INR (length (x :: xs))). lra. }
  split; [exact Hsm | ].
  pose proof (process_face_blink EAR_THRESHOLD W MIN_CLOSE_DURATION f w) as Hb.
  rewrite Hsm in Hb. unfold blink_of in Hb.
  unfold update_blink, fgtb in Hb. rewrite Hclosed in Hb.
  cbn [fltb andb Z.eqb Pos.eqb blink_state close_start_time blink_count] in Hb.
  injection Hb as Hs Ht _. split; assumption.
Qed.

End SmoothedRatio.

(** ** The geometry of the ratio *)

Section RatioGeometry.
Import Py Blink.
Local Open Scope R_scope.

(** [calculate_ear] by the shape of its argument: fewer than six points
    raise IndexError, and points after the sixth are ignored. *)
Lemma calculate_ear_shape (eye : list point) :
  calculate_ear eye =
  match eye with
  | p0 :: p1 :: p2 :: p3 :: p4 :: p5 :: _ => inl (ratio p0 p1 p2 p3 p4 p5)
  | _ => inr IndexError
  end.
Proof.
  destruct eye as [ | p0 [ | p1 [ | p2 [ | p3 [ | p4 [ | p5 rest]]]]]]; reflexivity.
Qed.

Lemma euclidean_sym (p q : point) : euclidean p q = euclidean q p.
Proof.
  unfold euclidean. cbv zeta. do 2 f_equal. ring.
Qed.

Lemma euclidean_translate (v p q : point) :
  euclidean (translate v p) (translate v q) = euclidean p q.
Proof.
  unfold euclidean, translate. cbn [fst snd]. do 2 f_equal. ring.
Qed.

Lemma ratio_translate (v p0 p1 p2 p3 p4 p5 : point) :
  ratio (translate v p0) (translate v p1) (translate v p2)
        (translate v p3) (translate v p4) (translate v p5) =
  ratio p0 p1 p2 p3 p4 p5.
Proof. unfold ratio. rewrite !euclidean_translate. reflexivity. Qed.

(** X12. The ratio does not depend on where the outline lies in the
    frame or on which lid is called upper: moving all the points by any
    vector does not change what [calculate_ear] returns, degenerate
    outlines and short lists included (the code only ever uses
    differences of coordinates), and neither does swapping the upper and
    the lower lid points. *)
Theorem calculate_ear_position_free (eye : list point) :
  (forall v : point, calculate_ear (map (translate v) eye) = calculate_ear eye) /\
  (forall p0 p1 p2 p3 p4 p5 : point,
     calculate_ear [p0; p5; p4; p3; p2; p1] = calculate_ear [p0; p1; p2; p3; p4; p5]).
Proof.
  split.
  - intros v. rewrite !calculate_ear_shape.
    destruct eye as [ | p0 [ | p1 [ | p2 [ | p3 [ | p4 [ | p5 rest]]]]]]; try reflexivity.
    cbn [map]. rewrite ratio_translate. reflexivity.
  - intros. rewrite !calculate_ear_shape. unfold ratio.
    rewrite (euclidean_sym p5 p1), (euclidean_sym p4 p2).
    rewrite (Rplus_comm (euclidean p1 p5)). reflexivity.
Qed.

(** X13. On a regular outline the ratio is zero exactly when both lids
    meet ([p1 = p5] and [p2 = p4]), and positive otherwise. *)
Theorem ratio_zero_iff_lids_meet (p0 p1 p2 p3 p4 p5 : point) :
  p0 <> p3 ->
  (calculate_ear [p0; p1; p2; p3; p4; p5] = inl (Fin 0) <-> p1 = p5 /\ p2 = p4) /\
  (~ (p1 = p5 /\ p2 = p4) ->
   exists r, calculate_ear [p0; p1; p2; p3; p4; p5] = inl (Fin r) /\ 0 < r).
Proof.
  intros Hne. rewrite calculate_ear_six.
  assert (HC : 0 < euclidean p0 p3).
  { pose proof (euclidean_nonneg p0 p3).
    destruct (Req_dec_T (euclidean p0 p3) 0) as [E | E]; [ | lra].
    apply euclidean_zero_iff in E. contradiction. }
  pose proof (euclidean_nonneg p1 p5) as HA. pose proof (euclidean_nonneg p2 p4) as HB.
  rewrite fdiv_fin_nonzero by lra.
  set (q := (euclidean p1 p5 + euclidean p2 p4) / (2 * euclidean p0 p3)).
  assert (Hq : q = 0 <-> euclidean p1 p5 + euclidean p2 p4 = 0).
  { unfold q. split; intros Hz.
    - apply (Rmult_eq_compat_r (2 * euclidean p0 p3)) in Hz.
      unfold Rdiv in Hz. rewrite Rmult_assoc, Rinv_l, Rmult_1_r, Rmult_0_l in Hz by lra.
      exact Hz.
    - rewrite Hz. unfold Rdiv. apply Rmult_0_l. }
  split.
  - rewrite <- heights_zero_iff, <- Hq. split.
    + intros Heq. injection Heq as Heq. exact Heq.
    + intros ->. reflexivity.
  - intros Hopen. exists q. split; [reflexivity | ].
    rewrite <- heights_zero_iff, <- Hq in Hopen.
    assert (0 <= q).
    { unfold q. apply Rmult_le_pos; [lra | ]. apply Rlt_le, Rinv_0_lt_compat. lra. }
    lra.
Qed.

End RatioGeometry.

(** ** The action labels *)

Section ActionMore.
Import Py win32con.
Local Open Scope string_scope.

Lemma scan_buttons_first (button : Z -> bool) (pre : list (Z * string))
    (id : Z) (name : string) (post : list (Z * string)) (action : string) :
  button id = true ->
  (forall e, In e pre -> button (fst e) = false) ->
  Xbox.scan_buttons button (pre ++ (id, name) :: post)%list action = name.
Proof.
  intros Hid Hpre. induction pre as [ | [id0 name0] pre IH]; cbn [app Xbox.scan_buttons].
  - rewrite Hid. reflexivity.
  - pose proof (Hpre (id0, name0) (or_introl eq_refl)) as H0. cbn [fst] in H0.
    rewrite H0. apply IH.
    intros e He. apply Hpre. right. exact He.
Qed.

Lemma scan_buttons_label (button : Z -> bool) (ids : list (Z * string)) (action : string) :
  Xbox.scan_buttons button ids action = action \/
  In (Xbox.scan_buttons button ids action) (map snd ids).
Proof.
  induction ids as [ | [id name] ids IH]; cbn [Xbox.scan_buttons map snd].
  - left. reflexivity.
  - destruct (button id).
    + right. left. reflexivity.
    + destruct IH as [IH | IH]; [left; exact IH | right; right; exact IH].
Qed.

Lemma scan_buttons_none (button : Z -> bool) (ids : list (Z * string)) (action : string) :
  (forall e, In e ids -> button (fst e) = false) ->
  Xbox.scan_buttons button ids action = action.
Proof.
  intros Hnone. induction ids as [ | [id name] ids IH]; cbn [Xbox.scan_buttons].
  - reflexivity.
  - pose proof (Hnone (id, name) (or_introl eq_refl)) as H0. cbn [fst] in H0.
    rewrite H0. apply IH.
    intros e He. apply Hnone. right. exact He.
Qed.

(** X14. The gamepad label is that of the first button of
    [controller_map] that is held: a held button before which no button
    of the map is held gives its name, whatever is held after it; with
    none held the label is "None"; and the label is always "None" or one
    of the ten names of the map. *)
Theorem gamepad_first_button_wins (button : Z -> bool) :
  (forall (pre : list (Z * string)) id name post,
     Xbox.controller_map = (pre ++ (id, name) :: post)%list ->
     button id = true ->
     (forall e, In e pre -> button (fst e) = false) ->
     Xbox.sample_action button = name) /\
  ((forall e, In e Xbox.controller_map -> button (fst e) = false) ->
   Xbox.sample_action button = "None") /\
  In (Xbox.sample_action button) ("None" :: map snd Xbox.controller_map).
Proof.
  unfold Xbox.sample_action. split; [ | split].
  - intros pre id name post Hmap Hid Hpre. rewrite Hmap.
    apply scan_buttons_first; assumption.
  - apply scan_buttons_none.
  - destruct (scan_buttons_label button Xbox.controller_map "None") as [H | H].
    + left. symmetry. exact H.
    + right. exact H.
Qed.

Lemma first_pressed_rev_last (key_state : Z -> Z) (pre : list (Z * string))
    (vk : Z) (name : string) (post : list (Z * string)) :
  pressed key_state vk = true ->
  (forall e, In e post -> pressed key_state (fst e) = false) ->
  last_pressed key_state (pre ++ (vk, name) :: post)%list = Some name.
Proof.
  intros Hvk Hpost. unfold last_pressed, first_pressed.
  rewrite rev_app_distr. cbn [rev]. rewrite <- app_assoc. cbn [app].
  rewrite find_append.
  destruct (find _ (rev post)) as [e | ] eqn:Hfind.
  - apply find_some in Hfind. destruct Hfind as [Hin Hp].
    apply in_rev in Hin. rewrite (Hpost e Hin) in Hp. discriminate.
  - cbn [find fst]. rewrite Hvk. reflexivity.
Qed.

Lemma last_pressed_label (key_state : Z -> Z) (keys : list (Z * string)) :
  match last_pressed key_state keys with
  | Some name => In name (map snd keys)
  | None => forall e, In e keys -> pressed key_state (fst e) = false
  end.
Proof.
  unfold last_pressed, first_pressed.
  destruct (find _ (rev keys)) as [e | ] eqn:Hfind; cbn [option_map].
  - apply find_some in Hfind. destruct Hfind as [Hin _].
    apply in_rev in Hin. apply in_map. exact Hin.
  - intros e He. apply (find_none _ _ Hfind e). apply in_rev in He. exact He.
Qed.

(** X15. In the pointer variant the mouse buttons outrank the keyboard
    and the left button outranks the right one: with the left button
    down the label is "Left Click" whatever else is down, with only the
    right one of the two down it is "Right Click"; with no button and no
    key of [key_map] down it is "None"; and the label is always one of
    "None", "Left Click", "Right Click" and the fifteen names of
    [key_map]. *)
Theorem pointer_buttons_outrank_keys (key_state : Z -> Z) :
  (pressed key_state VK_LBUTTON = true ->
   Main.sample_action key_state = "Left Click") /\
  (pressed key_state VK_LBUTTON = false ->
   pressed key_state VK_RBUTTON = true ->
   Main.sample_action key_state = "Right Click") /\
  (pressed key_state VK_LBUTTON = false ->
   pressed key_state VK_RBUTTON = false ->
   (forall e, In e Main.key_map -> pressed key_state (fst e) = false) ->
   Main.sample_action key_state = "None") /\
  In (Main.sample_action key_state)
     ("None" :: "Left Click" :: "Right Click" :: map snd Main.key_map).
Proof.
  rewrite sample_action_eq.
  pose proof (last_pressed_label key_state Main.key_map) as Hlast.
  split; [ | split; [ | split]].
  - intros ->. reflexivity.
  - intros -> ->. reflexivity.
  - intros -> -> Hnone.
    destruct (last_pressed key_state Main.key_map) as [name | ] eqn:Hl; [ | reflexivity].
    exfalso. unfold last_pressed, first_pressed in Hl.
    destruct (find _ (rev Main.key_map)) as [e | ] eqn:Hfind; [ | discriminate].
    apply find_some in Hfind. destruct Hfind as [Hin Hp].
    apply in_rev in Hin. rewrite (Hnone e Hin) in Hp. discriminate.
  - destruct (pressed key_state VK_LBUTTON); [right; left; reflexivity | ].
    destruct (pressed key_state VK_RBUTTON); [right; right; left; reflexivity | ].
    destruct (last_pressed key_state Main.key_map) as [name | ].
    + right. right. right. exact Hlast.
    + left. reflexivity.
Qed.

(** X16. The keyboard scan of the pointer variant runs through all of
    [key_map] and keeps the last hit: with no mouse button down, a key
    that is down and after which no key of the map is down gives the
    label, whatever is down before it; so a single key down gives its own
    name. *)
Theorem keyboard_scan_keeps_last_hit (key_state : Z -> Z) :
  forall (pre : list (Z * string)) vk name post,
    Main.key_map = (pre ++ (vk, name) :: post)%list ->
    pressed key_state VK_LBUTTON = false ->
    pressed key_state VK_RBUTTON = false ->
    pressed key_state vk = true ->
    (forall e, In e post -> pressed key_state (fst e) = false) ->
    Main.sample_action key_state = name.
Proof.
  intros pre vk name post Hmap HL HR Hvk Hpost.
  rewrite sample_action_eq, HL, HR, Hmap.
  rewrite (first_pressed_rev_last key_state pre vk name post Hvk Hpost).
  reflexivity.
Qed.

End ActionMore.

(** ** The counts in the log *)

Section LoggedCounts.
Import Py.
Local Open Scope Z_scope.

Lemma sorted_append (xs ys : list Z) :
  StronglySorted Z.le xs -> StronglySorted Z.le ys ->
  (forall x y, In x xs -> In y ys -> x <= y) ->
  StronglySorted Z.le (xs ++ ys).
Proof.
  intros Hxs Hys Hcross. induction Hxs as [ | x xs Hxs IH Hx]; [exact Hys | ].
  cbn [app]. constructor.
  - apply IH. intros a b Ha Hb. apply Hcross; [right; exact Ha | exact Hb].
  - apply Forall_app. split; [exact Hx | ].
    apply Forall_forall. intros y Hy. apply Hcross; [left; reflexivity | exact Hy].
Qed.

Lemma counts_logged_refl (w : world) : counts_logged w w.
Proof.
  exists [], []. rewrite app_nil_r.
  repeat split; try constructor; lia.
Qed.

Lemma counts_logged_trans (a b c : world) :
  counts_logged a b -> counts_logged b c -> counts_logged a c.
Proof.
  intros (l1 & c1 & Hlog1 & Hl1 & Hs1 & Hb1 & Hle1) (l2 & c2 & Hlog2 & Hl2 & Hs2 & Hb2 & Hle2).
  exists (l1 ++ l2)%list, (c1 ++ c2)%list.
  rewrite Forall_forall in Hb1, Hb2.
  split; [rewrite Hlog2, Hlog1, app_assoc; reflexivity | ].
  split; [apply Forall2_app; assumption | ].
  split; [ | split; [ | lia]].
  - apply sorted_append; try assumption.
    intros x y Hx Hy. specialize (Hb1 x Hx). specialize (Hb2 y Hy). lia.
  - apply Forall_forall. intros x Hx. apply in_app_or in Hx.
    destruct Hx as [Hx | Hx]; [specialize (Hb1 x Hx) | specialize (Hb2 x Hx)]; lia.
Qed.

Lemma counts_logged_one (w w2 : world) (line : string) :
  log_file w2 = log_file w ->
  blink_count w <= blink_count w2 ->
  logs_count line (blink_count w2) ->
  counts_logged w (append_log w2 line).
Proof.
  intros Hlog Hle Hline. exists [line], [blink_count w2].
  cbn [append_log log_file blink_count]. rewrite Hlog.
  split; [reflexivity | ].
  split; [constructor; [exact Hline | constructor] | ].
  split; [repeat constructor | ].
  split; [constructor; [lia | constructor] | exact Hle].
Qed.

Lemma main_iteration_logged (t : Main.tick) (w : world) :
  counts_logged w (exec (Main.iteration t) w).
Proof.
  unfold exec. rewrite main_iteration_eq.
  destruct (Main.frame t) as [faces | ]; cbv zeta; cbn [snd].
  - destruct (process_faces_frame Main.EAR_THRESHOLD Main.SMOOTHING_WINDOW
                Main.MIN_CLOSE_DURATION faces (read_frame w)) as [Hlog _].
    pose proof (process_faces_count Main.EAR_THRESHOLD Main.SMOOTHING_WINDOW
                  Main.MIN_CLOSE_DURATION faces (read_frame w)) as Hcount.
    apply counts_logged_one.
    + exact Hlog.
    + apply Hcount.
    + left. eexists _, _, _. reflexivity.
  - exists [], []. cbn [read_frame log_file blink_count]. rewrite app_nil_r.
    repeat split; try constructor; lia.
Qed.

Lemma xbox_iteration_logged (t : Xbox.tick) (w : world) :
  counts_logged w (exec (Xbox.iteration t) w).
Proof.
  unfold exec. rewrite xbox_iteration_eq.
  destruct (Xbox.frame t) as [faces | ]; cbv zeta; cbn [snd].
  - destruct (process_faces_frame Xbox.EAR_THRESHOLD Xbox.SMOOTHING_WINDOW
                Xbox.MIN_CLOSE_DURATION faces (read_frame w)) as [Hlog _].
    pose proof (process_faces_count Xbox.EAR_THRESHOLD Xbox.SMOOTHING_WINDOW
                  Xbox.MIN_CLOSE_DURATION faces (read_frame w)) as Hcount.
    apply counts_logged_one.
    + exact Hlog.
    + apply Hcount.
    + right. eexists _, _, _, _, _, _. reflexivity.
  - exists [], []. cbn [read_frame log_file blink_count]. rewrite app_nil_r.
    repeat split; try constructor; lia.
Qed.

(** X17. The log is only ever appended to, and the counts it records
    never go down: whatever a run of either variant does, the log after
    it is the log before it followed by new lines, each new line carries
    a count, and these counts are non-decreasing in the order the lines
    were written, none below the count at the start of the run and none
    above the count at its end. *)
Theorem logged_counts_nondecreasing (w : world) :
  (forall ticks : list Main.tick,
     counts_logged w (exec (Main.track_actions ticks) w)) /\
  (forall (joysticks : Z) (ticks : list Xbox.tick),
     counts_logged w (exec (Xbox.track_actions joysticks ticks) w)).
Proof.
  split.
  - intros ticks. unfold Main.track_actions.
    apply (while_true_rel Main.tick Main.iteration counts_logged).
    + apply counts_logged_refl.
    + apply counts_logged_trans.
    + apply main_iteration_logged.
  - intros joysticks ticks. unfold Xbox.track_actions.
    destruct (joysticks =? 0).
    { exists [], []. cbn. rewrite app_nil_r. repeat split; try constructor; lia. }
    apply (while_true_rel Xbox.tick Xbox.iteration counts_logged).
    + apply counts_logged_refl.
    + apply counts_logged_trans.
    + apply xbox_iteration_logged.
Qed.

End LoggedCounts.

(** ** The log line of the pointer variant, short outlines *)

Section PointerLog.
Import Py Blink.

Lemma string_append_assoc (a b c : string) :
  ((a ++ b) ++ c = a ++ (b ++ c))%string.
Proof.
  induction a as [ | ch a IH]; [reflexivity | ].
  cbn [append]. rewrite IH. reflexivity.
Qed.

(** X18. A pass of the pointer loop that got a frame appends one line of
    the shape "<timestamp> - (<x>, <y>) - <action> - <count>" and a
    newline, with the cursor position as two decimal integers and the
    count as it is after the faces of this frame; with the cursor at
    (640, 360), the right button and W down and a count of 3 the line is
    "... - (640, 360) - Right Click - 3". *)
Theorem pointer_log_record (t : Main.tick) (faces : list face) (w : world) :
  Main.frame t = Some faces ->
  let w' := exec (Main.iteration t) w in
  log_file w' =
    log_file w ++
    [ (Main.timestamp t ++ " - (" ++
       str_int (fst (Main.cursor t)) ++ ", " ++ str_int (snd (Main.cursor t)) ++
       ") - " ++ Main.sample_action (Main.GetKeyState t) ++ " - " ++
       str_int (blink_count w') ++ String "010" "")%string ] /\
  log_file (exec (Main.iteration example_pointer_tick) example_pad_world) =
    [ ("2025-01-01 12:00:00 - (640, 360) - Right Click - 3" ++ String "010" "")%string ].
Proof.
  intros Hframe. cbv zeta. unfold exec. rewrite !main_iteration_eq, Hframe.
  cbv zeta. cbn [snd append_log log_file blink_count].
  split; [ | reflexivity].
  destruct (process_faces_frame Main.EAR_THRESHOLD Main.SMOOTHING_WINDOW
              Main.MIN_CLOSE_DURATION faces (read_frame w)) as [Hlog _].
  rewrite Hlog. cbn [read_frame log_file]. do 2 f_equal.
  unfold Main.log_line, Main.str_coords.
  rewrite !string_append_assoc. reflexivity.
Qed.

(** X19. [calculate_ear] needs six points: on fewer it raises
    IndexError, and on six or more it returns a value that depends on the
    first six only. *)
Theorem calculate_ear_needs_six_points (eye : list point) :
  ((length eye < 6)%nat -> calculate_ear eye = inr IndexError) /\
  ((6 <= length eye)%nat ->
   exists v, calculate_ear eye = inl v /\ calculate_ear (firstn 6 eye) = inl v).
Proof.
  rewrite !calculate_ear_shape.
  destruct eye as [ | p0 [ | p1 [ | p2 [ | p3 [ | p4 [ | p5 rest]]]]]];
    cbn [length]; (split; [intros Hlt | intros Hge]); try reflexivity; try lia.
  exists (ratio p0 p1 p2 p3 p4 p5). split; reflexivity.
Qed.

End PointerLog.

(** ** The further properties at concrete inputs *)

Section MoreInstances.
Import Py Blink.
Local Open Scope R_scope.

(** One face into an empty buffer of window five leaves one sample. *)
Lemma buffer_within_window_witness :
  (length (ear_buffer (initial_world [])) <= 5)%nat /\
  length (ear_buffer (exec (process_faces 0.25 5 0.10 [degenerate_face])
                        (initial_world []))) = 1%nat.
Proof.
  split; [cbn; lia | ].
  apply (proj1 buffer_within_window 0.25 5%nat 0.10 [degenerate_face] (initial_world [])).
  cbn. lia.
Defined.

(** A window of 0 raises on the first face. *)
Lemma empty_window_raises_witness :
  (length (ear_buffer (initial_world [])) <= 0)%nat /\
  fst (process_face 0.25 0 0.10 degenerate_face (initial_world [])) =
  inr ZeroDivisionError.
Proof.
  split; [cbn; lia | ].
  apply (empty_window_raises 0.25 0 0.10 degenerate_face (initial_world []));
    [cbn; lia | reflexivity].
Defined.

Lemma collapsed_avg_ear : avg_ear collapsed_face = NaN.
Proof.
  change (avg_ear collapsed_face) with
    (fdiv (fadd (ratio (0, 0)%Z (0, 0)%Z (0, 0)%Z (0, 0)%Z (0, 0)%Z (0, 0)%Z)
                (ratio (0, 0)%Z (0, 0)%Z (0, 0)%Z (0, 0)%Z (0, 0)%Z (0, 0)%Z))
          (Fin 2)).
  rewrite ratio_degenerate by reflexivity.
  unfold Reqb.
  destruct (Req_dec_T (euclidean (0, 0)%Z (0, 0)%Z + euclidean (0, 0)%Z (0, 0)%Z) 0)
    as [_ | E]; [reflexivity | ].
  exfalso. apply E. apply heights_zero_iff. split; reflexivity.
Qed.

(** A face whose landmarks all coincide leaves a closed detector closed. *)
Lemma nan_sample_blinds_detector_witness :
  In NaN (deque_append 5 (ear_buffer (closed_world 0.10 2)) (avg_ear collapsed_face)) /\
  blink_of (exec (process_face 0.25 5 0.10 collapsed_face) (closed_world 0.10 2)) =
  blink_of (closed_world 0.10 2).
Proof.
  assert (Hin : In NaN (deque_append 5 (ear_buffer (closed_world 0.10 2))
                          (avg_ear collapsed_face))).
  { rewrite collapsed_avg_ear. left. reflexivity. }
  split; [exact Hin | ].
  apply (nan_sample_blinds_detector 0.25 5 0.10 collapsed_face (closed_world 0.10 2)).
  exact Hin.
Defined.

(** A face with degenerate eyes opens a closed detector. *)
Lemma inf_sample_opens_detector_witness :
  blink_state (closed_world 0.10 2) = CLOSED /\
  blink_state (exec (process_face 0.25 5 0.10 degenerate_face) (closed_world 0.10 2)) = OPEN.
Proof.
  split; [reflexivity | ].
  apply (inf_sample_opens_detector 0.25 5 0.10 degenerate_face (closed_world 0.10 2)).
  - rewrite degenerate_avg_ear. constructor; [exact I | constructor].
  - rewrite degenerate_avg_ear. left. reflexivity.
  - reflexivity.
Defined.

(** The example pass of the pointer loop. *)
Lemma pointer_log_record_witness :
  Main.frame example_pointer_tick = Some [] /\
  length (log_file (exec (Main.iteration example_pointer_tick) example_pad_world)) = 1%nat.
Proof.
  split; [reflexivity | ].
  rewrite (proj1 (pointer_log_record example_pointer_tick [] example_pad_world eq_refl)).
  reflexivity.
Defined.

(** Five points are one too few. *)
Lemma calculate_ear_needs_six_points_witness :
  (length (firstn 5 degenerate_eye) < 6)%nat /\
  calculate_ear (firstn 5 degenerate_eye) = inr IndexError.
Proof.
  split; [cbn; lia | ].
  apply (calculate_ear_needs_six_points (firstn 5 degenerate_eye)).
  cbn. lia.
Defined.

(** A flat outline, 100 wide: the lids meet and the ratio is 0. *)
Lemma ratio_zero_iff_lids_meet_witness :
  (0, 0)%Z <> (100, 0)%Z /\
  calculate_ear (eye_of_height 0) = inl (Fin 0).
Proof.
  split; [discriminate | ].
  apply (ratio_zero_iff_lids_meet (0, 0)%Z (30, 0)%Z (60, 0)%Z (100, 0)%Z (60, 0)%Z (30, 0)%Z).
  - discriminate.
  - split; reflexivity.
Defined.

(** With every button held the label is that of button 0. *)
Lemma gamepad_first_button_wins_witness :
  Xbox.controller_map = ([] ++ (0%Z, "A"%string) :: tl Xbox.controller_map)%list /\
  Xbox.sample_action (fun _ => true) = "A"%string.
Proof.
  split; [reflexivity | ].
  apply (proj1 (gamepad_first_button_wins (fun _ => true))
           [] 0%Z "A"%string (tl Xbox.controller_map)).
  - reflexivity.
  - reflexivity.
  - intros e [].
Defined.

(** Left button and W down together. *)
Lemma pointer_buttons_outrank_keys_witness :
  pressed (keys_down [win32con.VK_LBUTTON; 0x57%Z]) win32con.VK_LBUTTON = true /\
  Main.sample_action (keys_down [win32con.VK_LBUTTON; 0x57%Z]) = "Left Click"%string.
Proof.
  split; [reflexivity | ].
  apply (pointer_buttons_outrank_keys (keys_down [win32con.VK_LBUTTON; 0x57%Z])).
  reflexivity.
Defined.

(** W and A down: A comes later in [key_map]. *)
Lemma keyboard_scan_keeps_last_hit_witness :
  pressed (keys_down [0x57%Z; 0x41%Z]) 0x41%Z = true /\
  Main.sample_action (keys_down [0x57%Z; 0x41%Z]) = "A"%string.
Proof.
  split; [reflexivity | ].
  apply (keyboard_scan_keeps_last_hit (keys_down [0x57%Z; 0x41%Z])
           [(0x57%Z, "W"%string)] 0x41%Z "A"%string (tl (tl Main.key_map))).
  - reflexivity.
  - reflexivity.
  - reflexivity.
  - reflexivity.
  - intros e He. cbn in He.
    repeat (destruct He as [<- | He]; [reflexivity | ]). destruct He.
Defined.

End MoreInstances.

(** ** The smoothing filter, as the machine computes it *)

Section Binary64Filter.
Import Py.

(** C5, as stated, fails: with the samples 0.25, 0.41 and 0.09 in a
    filter of five (three samples, so still warming up) the output is
    0.24999999999999997.  That is not the arithmetic mean of the three
    samples, and not the binary64 value nearest to it either, which is
    0.25; and unlike 0.25 it is below a threshold of 0.25. *)
Lemma binary64_mean_is_rounded :
  Bin64.smoothed_ear 5 rounding_samples = inl 0.24999999999999997%float /\
  (exists out mean : QArith_base.Q,
     exact_value 0.24999999999999997%float = Some out /\
     exact_mean rounding_samples = Some mean /\
     ~ QArith_base.Qeq out mean /\
     QArith_base.Qlt out mean /\
     QArith_base.Qlt (QArith_base.Qminus (QArith_base.Qmake 1 4) mean)
                     (QArith_base.Qminus mean out)) /\
  PrimFloat.ltb 0.24999999999999997%float 0.25%float = true /\
  PrimFloat.ltb 0.25%float 0.25%float = false.
Proof.
  split; [vm_compute; reflexivity | split; [ | split; vm_compute; reflexivity]].
  eexists. eexists.
  split; [vm_compute; reflexivity | split; [vm_compute; reflexivity | ]].
  split; [ | split].
  - vm_compute. discriminate.
  - vm_compute. reflexivity.
  - vm_compute. reflexivity.
Qed.

(** C5, amended. For every sequence of samples put into an empty filter
    of capacity [W >= 1] (5 in the code): the filter holds the last [W]
    of them, oldest first, and all of them while there are at most [W],
    so never a padded set; and its output is [sum / len] over exactly the
    samples it holds, the sum taken front to back from 0 and every
    operation rounded to binary64.  In both loops the buffer after a
    frame is the buffer before it fed with the samples of the frame's
    faces. *)
Theorem smoothing_filter_window (W : nat) (samples : list float) :
  (0 < W)%nat ->
  samples <> [] ->
  let buffer := feed W [] samples in
  buffer = last_n W samples /\
  length buffer = Nat.min W (length samples) /\
  ((length samples <= W)%nat -> buffer = samples) /\
  Bin64.smoothed_ear W samples =
    inl (PrimFloat.div
           (fold_left PrimFloat.add (last_n W samples) 0%float)
           (PrimFloat.of_uint63
              (Uint63.of_Z (Z.of_nat (Nat.min W (length samples)))))) /\
  ((length samples <= W)%nat ->
   Bin64.smoothed_ear W samples =
     inl (PrimFloat.div
            (fold_left PrimFloat.add samples 0%float)
            (PrimFloat.of_uint63 (Uint63.of_Z (Z.of_nat (length samples)))))) /\
  (forall (EAR_THRESHOLD MIN_CLOSE_DURATION : R) (faces : list Blink.face) (w : world),
     ear_buffer (exec (Blink.process_faces EAR_THRESHOLD W MIN_CLOSE_DURATION faces) w) =
     feed W (ear_buffer w) (map avg_ear faces)).
Proof.
  intros HW Hne. cbv zeta.
  assert (Hbuf : feed W [] samples = last_n W samples).
  { rewrite feed_last_n by (cbn; lia). reflexivity. }
  assert (Hlen : length (last_n W samples) = Nat.min W (length samples)).
  { unfold last_n. rewrite length_skipn. lia. }
  assert (Hall : (length samples <= W)%nat -> last_n W samples = samples).
  { intros Hk. unfold last_n.
    replace (length samples - W)%nat with 0%nat by lia. reflexivity. }
  assert (Hout : Bin64.smoothed_ear W samples =
                 inl (PrimFloat.div
                        (fold_left PrimFloat.add (last_n W samples) 0%float)
                        (PrimFloat.of_uint63
                           (Uint63.of_Z (Z.of_nat (Nat.min W (length samples))))))).
  { unfold Bin64.smoothed_ear. fold (feed W [] samples). rewrite Hbuf.
    pose proof (last_n_nonempty W samples HW Hne) as Hnonempty.
    unfold Bin64.sum_div_len, Bin64.py_sum, Bin64.py_len. rewrite Hlen.
    destruct (last_n W samples); [contradiction | reflexivity]. }
  split; [exact Hbuf | ].
  split; [rewrite Hbuf; exact Hlen | ].
  split; [intros Hk; rewrite Hbuf; apply Hall; exact Hk | ].
  split; [exact Hout | ].
  split.
  - intros Hk. rewrite Hout, (Hall Hk), Nat.min_r by exact Hk. reflexivity.
  - intros. apply process_faces_buffer.
Qed.

(** Three samples in a filter of five: all three are held. *)
Lemma smoothing_filter_window_witness :
  (0 < 5)%nat /\
  rounding_samples <> [] /\
  feed 5 [] rounding_samples = rounding_samples.
Proof.
  split; [lia | split; [discriminate | ]].
  apply (smoothing_filter_window 5 rounding_samples).
  - lia.
  - discriminate.
  - cbn. lia.
Defined.

End Binary64Filter.

(** ** Passes without a face, failed reads and the quit key, spelled out *)

Section PassesSpelledOut.
Import Py win32con.
Local Open Scope string_scope.

(** The two log lines, character by character. *)
Lemma main_line_text (ts : string) (cursor : Z * Z) (action : string) (count : Z) :
  Main.log_line ts cursor action count =
  ts ++ " - (" ++ str_int (fst cursor) ++ ", " ++ str_int (snd cursor) ++ ") - " ++
  action ++ " - " ++ str_int count ++ String "010" "".
Proof.
  unfold Main.log_line, Main.str_coords.
  rewrite !string_append_assoc. reflexivity.
Qed.

Lemma xbox_line_text (ts : string) (lx ly rx ry : float) (action : string) (count : Z) :
  Xbox.log_text ts lx ly rx ry action count =
  ts ++ " - (" ++ format_2f lx ++ ", " ++ format_2f ly ++ ") - (" ++
  format_2f rx ++ ", " ++ format_2f ry ++ ") - " ++
  action ++ " - " ++ str_int count ++ String "010" "".
Proof. reflexivity. Qed.

(** The gamepad scan as a search: the first entry of [controller_map]
    whose button is held. *)
Lemma scan_buttons_find (button : Z -> bool) (ids : list (Z * string)) (action : string) :
  Xbox.scan_buttons button ids action =
  match find (fun entry => button (fst entry)) ids with
  | Some entry => snd entry
  | None => action
  end.
Proof.
  induction ids as [ | [id name] ids IH]; cbn [Xbox.scan_buttons find fst].
  - reflexivity.
  - destruct (button id); [reflexivity | exact IH].
Qed.

(** C6. In a pass whose frame holds no face, the detector's state, its
    start time, the count and the buffer stay as they were, while the
    action is still sampled from the devices and one line is still
    appended to the log: the timestamp, the cursor or the four stick
    components, the label of what is down in this pass, and the unchanged
    count; in both variants.  With the right button and W down and the
    cursor at (640, 360), the pointer line on a count of 3 is
    "... - (640, 360) - Right Click - 3"; with button 0 held the gamepad
    line is "... - (0.12, -0.46) - (0.00, 1.00) - A - 3". *)
Theorem no_face_holds_detector (w : world) :
  (forall t : Main.tick,
     Main.frame t = Some [] ->
     let w' := exec (Main.iteration t) w in
     let keys := Main.GetKeyState t in
     let action :=
       if pressed keys VK_LBUTTON then "Left Click"
       else if pressed keys VK_RBUTTON then "Right Click"
       else match last_pressed keys Main.key_map with
            | Some name => name
            | None => "None"
            end in
     detector_of w' = detector_of w /\
     log_file w' =
       (log_file w ++
        [ (Main.timestamp t ++ " - (" ++
          str_int (fst (Main.cursor t)) ++ ", " ++ str_int (snd (Main.cursor t)) ++
          ") - " ++ action ++ " - " ++ str_int (blink_count w) ++ String "010" "")%string ])%list) /\
  (forall t : Xbox.tick,
     Xbox.frame t = Some [] ->
     let w' := exec (Xbox.iteration t) w in
     let action :=
       match find (fun entry => Xbox.get_button t (fst entry)) Xbox.controller_map with
       | Some entry => snd entry
       | None => "None"
       end in
     detector_of w' = detector_of w /\
     log_file w' =
       (log_file w ++
        [ (Xbox.timestamp t ++ " - (" ++
          format_2f (Xbox.get_axis t 0) ++ ", " ++ format_2f (Xbox.get_axis t 1) ++
          ") - (" ++
          format_2f (Xbox.get_axis t 4) ++ ", " ++ format_2f (Xbox.get_axis t 5) ++
          ") - " ++ action ++ " - " ++ str_int (blink_count w) ++ String "010" "")%string ])%list) /\
  log_file (exec (Main.iteration example_pointer_tick) example_pad_world) =
    [ "2025-01-01 12:00:00 - (640, 360) - Right Click - 3" ++ String "010" "" ] /\
  log_file (exec (Xbox.iteration example_pad_tick) example_pad_world) =
    [ "2025-01-01 12:00:00 - (0.12, -0.46) - (0.00, 1.00) - A - 3" ++ String "010" "" ].
Proof.
  split; [ | split; [ | split]].
  - intros t Hframe. cbv zeta. unfold exec.
    rewrite main_iteration_eq, Hframe. cbv zeta. unfold exec.
    rewrite process_faces_nil. cbn [snd].
    split; [reflexivity | ].
    cbn [append_log log_file read_frame blink_count].
    rewrite main_line_text, sample_action_eq. reflexivity.
  - intros t Hframe. cbv zeta. unfold exec.
    rewrite xbox_iteration_eq, Hframe. cbv zeta. unfold exec.
    rewrite process_faces_nil. cbn [snd].
    split; [reflexivity | ].
    cbn [append_log log_file read_frame blink_count].
    rewrite xbox_line_text. unfold Xbox.sample_action.
    rewrite scan_buttons_find. reflexivity.
  - unfold exec. rewrite main_iteration_eq. reflexivity.
  - unfold exec. rewrite xbox_iteration_eq. reflexivity.
Qed.

(** The example pass of the pointer loop leaves the detector alone. *)
Lemma no_face_holds_detector_witness :
  Main.frame example_pointer_tick = Some [] /\
  detector_of (exec (Main.iteration example_pointer_tick) (closed_world 0.10 2)) =
  detector_of (closed_world 0.10 2).
Proof.
  split; [reflexivity | ].
  apply (proj1 (no_face_holds_detector (closed_world 0.10 2)) example_pointer_tick).
  reflexivity.
Defined.



End PassesSpelledOut.
